(** * Iris clustering dashboard: the callback [run_clustering] of iris_app.py

    The program is one Dash callback around three libraries: pandas (the
    table), scikit-learn (k-means) and plotly (the chart).  The callback is
    embedded as a state-and-exception computation over a store of data
    frames.  The library operations the callback uses are written out as
    their documentation describes them; the numerical core of k-means is a
    parameter of the development, its documented interface appearing as
    explicit hypotheses where a statement needs it. *)

From Stdlib Require Import QArith Qcanon.
From stdpp Require Import base numbers strings list gmap pretty.

Local Open Scope Z_scope.

(** ** Python values and exceptions *)

(** The exceptions the callback can end with. *)
Inductive exn :=
  | TypeError
  | KeyError
  | ValueError
  | InvalidParameterError
  | AttributeError
  | NameError.

Inductive result (A : Type) :=
  | Ok (a : A)
  | Err (e : exn).
Arguments Ok {A} a.
Arguments Err {A} e.

(** What the numeric input widget delivers for "cluster-input" (and the
    button for its click count): nothing, an integer or a fractional number. *)
Inductive PyVal :=
  | PyNone
  | PyInt (z : Z)
  | PyFloat (q : Qc).

Definition py_num (v : PyVal) : option Qc :=
  match v with
  | PyNone => None
  | PyInt z => Some (Qc_of_Z z)
  | PyFloat q => Some q
  end.

(** [a > b]; ordering a number against [None] raises. *)
Definition py_gt (a b : PyVal) : result bool :=
  match py_num a, py_num b with
  | Some qa, Some qb => Ok (bool_decide (qb < qa)%Qc)
  | _, _ => Err TypeError
  end.

(** The builtin [max(a, b)]: keeps [a] unless [b > a]. *)
Definition py_max (a b : PyVal) : result PyVal :=
  match py_gt b a with
  | Ok true => Ok b
  | Ok false => Ok a
  | Err e => Err e
  end.

(** [str(i)] and [ndarray.astype(str)] on integers: decimal digits, a
    leading minus sign for negatives. *)
Definition py_str (z : Z) : string := pretty z.

(** [list(range(n))]; [range] wants an integer. *)
Definition py_range (n : PyVal) : result (list Z) :=
  match n with
  | PyInt z => Ok (seqZ 0 z)
  | _ => Err TypeError
  end.

(** ** Data frames *)

(** A cell of a table.  Measurements are kept as exact rationals: the
    rounding of the program's floating-point numbers is not modelled. *)
Inductive Cell :=
  | CFloat (q : Qc)
  | CInt (z : Z)
  | CStr (s : string).

Global Instance Cell_eq_dec : EqDecision Cell.
Proof. solve_decision. Defined.

(** A frame is column-major: an ordered list of labelled columns over a
    row index of [df_len] positions. *)
Record DataFrame := mkDataFrame {
  df_len : nat;
  columns : list (string * list Cell)
}.

(** Every column spans the whole index. *)
Definition frame_ok (df : DataFrame) : Prop :=
  Forall (λ c, length c.2 = df_len df) (columns df).

(** [df.rename(columns=mapping)]: labels found in the mapping are replaced. *)
Definition rename (mapping : gmap string string) (df : DataFrame) : DataFrame :=
  mkDataFrame (df_len df)
    (map (λ c, (default c.1 (mapping !! c.1), c.2)) (columns df)).

(** The columns carrying a given label, in frame order. *)
Definition labelled (name : string) (df : DataFrame) : list (string * list Cell) :=
  filter (λ c, c.1 = name) (columns df).

(** [df[[n1, n2, ...]]]: every requested label must exist; the result lists
    the matching columns in the order requested (a label requested twice is
    delivered twice). *)
Fixpoint getitem_list (df : DataFrame) (names : list string)
    : result (list (string * list Cell)) :=
  match names with
  | [] => Ok []
  | n :: rest =>
      match labelled n df with
      | [] => Err KeyError
      | cs =>
          match getitem_list df rest with
          | Ok more => Ok (cs ++ more)
          | Err e => Err e
          end
      end
  end.

(** What [df[name]] evaluates to: a one-dimensional series when the label is
    unique, a sub-frame holding every matching column when it is not. *)
Inductive Selection :=
  | Series (name : string) (data : list Cell)
  | SubFrame (df : DataFrame).

Definition getitem (df : DataFrame) (name : string) : result Selection :=
  match labelled name df with
  | [] => Err KeyError
  | [c] => Ok (Series c.1 c.2)
  | cs => Ok (SubFrame (mkDataFrame (df_len df) cs))
  end.

(** Number of positions along the index of a selection. *)
Definition sel_len (s : Selection) : nat :=
  match s with
  | Series _ data => length data
  | SubFrame df => df_len df
  end.


(** [df.values]: the table as a list of rows.  Cells are delivered as they
    are: the common type pandas gives the array (floats, when integer and
    float columns are selected together) is not modelled; the callback's own
    selections are attribute columns, all of floats. *)
Definition values (df : DataFrame) : list (list Cell) :=
  map (λ i, omap (λ c : string * list Cell, c.2 !! i) (columns df))
      (seq 0 (df_len df)).

(** [df[name] = arr]: the array must span the index; an existing label is
    overwritten in place, a new one is appended as the last column. *)
Definition setitem (df : DataFrame) (name : string) (arr : list Cell)
    : result DataFrame :=
  if decide (length arr = df_len df) then
    Ok (mkDataFrame (df_len df)
          (match labelled name df with
           | [] => columns df ++ [(name, arr)]
           | _ => map (λ c, if decide (c.1 = name) then (c.1, arr) else c)
                      (columns df)
           end))
  else Err ValueError.

(** [df.to_dict("records")]: one dictionary per index position, keyed by
    column label (a later column wins when a label repeats). *)
Definition record_at (df : DataFrame) (i : nat) : gmap string Cell :=
  list_to_map (reverse (omap (λ c : string * list Cell,
                                pair c.1 <$> c.2 !! i) (columns df))).

Definition to_dict_records (df : DataFrame) : list (gmap string Cell) :=
  map (record_at df) (seq 0 (df_len df)).

(** [pd.DataFrame(arr, columns=names)] for a two-dimensional array given as
    its rows: each row must have one entry per label. *)
Definition pd_DataFrame (arr : list (list Qc)) (names : list string)
    : result DataFrame :=
  if decide (Forall (λ r, length r = length names) arr) then
    Ok (mkDataFrame (length arr)
          (imap (λ j n, (n, omap (λ r : list Qc, CFloat <$> r !! j) arr)) names))
  else Err ValueError.

(** ** The store, and computations over it *)

(** Frames live in a store and are named by references, so that a frame
    reached through two names is one object.  The store also carries the
    state of the global random generator k-means draws from, and the list of
    fits requested from scikit-learn so far (the estimator's requested
    cluster count with the sample matrix), latest last. *)
Record World := mkWorld {
  frames : gmap positive DataFrame;
  random_state : N;
  fit_log : list (PyVal * list (list Cell))
}.

Definition M (A : Type) : Type := World → result A * World.

Global Instance M_ret : MRet M := λ A a w, (Ok a, w).

Global Instance M_bind : MBind M := λ A B f m w,
  match m w with
  | (Ok a, w') => f a w'
  | (Err e, w') => (Err e, w')
  end.

Definition raise {A} (e : exn) : M A := λ w, (Err e, w).

Definition lift {A} (r : result A) : M A := λ w, (r, w).

Definition read (l : positive) : M DataFrame :=
  λ w, match frames w !! l with
       | Some df => (Ok df, w)
       | None => (Err NameError, w)
       end.

Definition write (l : positive) (df : DataFrame) : M unit :=
  λ w, (Ok (), mkWorld (<[l := df]> (frames w)) (random_state w) (fit_log w)).

Definition alloc (df : DataFrame) : M positive :=
  λ w, let l := fresh (dom (frames w)) in
       (Ok l, mkWorld (<[l := df]> (frames w)) (random_state w) (fit_log w)).

(** [df.copy(deep=True)]: a new object with the same contents. *)
Definition copy_deep (l : positive) : M positive :=
  (df ← read l; alloc df).

(** [df[name] = arr] on the object behind a reference. *)
Definition setitem_at (l : positive) (name : string) (arr : list Cell) : M unit :=
  (df ← read l; df' ← lift (setitem df name arr); write l df').

(** ** The chart *)

Record Marker := mkMarker {
  marker_color : string;
  marker_size : Z;
  marker_symbol : string
}.

(** [go.Scatter(x=..., y=..., mode=..., marker=..., name=...)] *)
Record GoScatter := mkGoScatter {
  trace_x : Selection;
  trace_y : Selection;
  trace_mode : string;
  trace_marker : Marker;
  trace_name : string
}.

(** A figure is kept as the chart request it was built from: the arguments
    of [px.scatter] (with the frame as it was at the call) and the traces
    added afterwards, in order. *)
Record Figure := mkFigure {
  data_frame : DataFrame;
  fig_x : string;
  fig_y : string;
  fig_color : string;
  category_orders : gmap string (list string);
  added_traces : list GoScatter
}.

Definition px_scatter (df : DataFrame) (x y color : string)
    (orders : gmap string (list string)) : Figure :=
  mkFigure df x y color orders [].

Definition add_trace (fig : Figure) (t : GoScatter) : Figure :=
  mkFigure (data_frame fig) (fig_x fig) (fig_y fig) (fig_color fig)
           (category_orders fig) (added_traces fig ++ [t]).

(** ** The estimator *)

Record KMeans := mkKMeans {
  n_clusters : PyVal;
  labels_ : option (list Z);
  cluster_centers_ : option (list (list Qc))
}.

(** [KMeans(n_clusters=n)]: the constructor stores its argument unchecked. *)
Definition KMeans_new (n : PyVal) : KMeans := mkKMeans n None None.

(** A fitted attribute read before [fit] does not exist. *)
Definition fitted {A} (attr : option A) : result A :=
  match attr with
  | Some a => Ok a
  | None => Err AttributeError
  end.

(** A cell as a number.  Text is taken not to read as a number, as is the
    case of species names; text that does read as one, which scikit-learn
    would convert, is outside the model. *)
Definition as_float (c : Cell) : option Qc :=
  match c with
  | CFloat q => Some q
  | CInt z => Some (Qc_of_Z z)
  | CStr _ => None
  end.

(** Input validation of [fit]: the samples must convert to numbers. *)
Definition check_array (X : list (list Cell)) : result (list (list Qc)) :=
  match mapM (mapM as_float) X with
  | Some Xf => Ok Xf
  | None => Err ValueError
  end.

(** What [fit] checks before any computation: the parameters first (the
    cluster count must be an integer, at least 1), then the samples, then
    the cluster count against the number of samples. *)
Definition validate_fit (km : KMeans) (X : list (list Cell))
    : result (Z * list (list Qc)) :=
  match n_clusters km with
  | PyInt k =>
      if decide (1 ≤ k) then
        match check_array X with
        | Ok Xf =>
            if decide (k ≤ Z.of_nat (length Xf)) then Ok (k, Xf)
            else Err ValueError
        | Err e => Err e
        end
      else Err InvalidParameterError
  | _ => Err InvalidParameterError
  end.

(** Record a fit requested from scikit-learn. *)
Definition log_fit (n : PyVal) (X : list (list Cell)) : M unit :=
  λ w, (Ok (), mkWorld (frames w) (random_state w) (fit_log w ++ [(n, X)])).

Definition sum_Qc (l : list Qc) : Qc := foldr Qcplus (Qc_of_Z 0) l.

(** Arithmetic mean. *)
Definition mean (l : list Qc) : Qc :=
  (sum_Qc l / Qc_of_Z (Z.of_nat (length l)))%Qc.

(** Number of features of a sample matrix. *)
Definition n_features {A} (X : list (list A)) : nat :=
  match X with
  | [] => 0
  | r :: _ => length r
  end.

(** Feature [j] of every sample. *)
Definition feature {A} (j : nat) (X : list (list A)) : list A :=
  omap (λ r : list A, r !! j) X.

(** The type of the numerical core of k-means, on validated input: from the
    generator state, the cluster count and the samples to the label of every
    sample, the cluster centres, and the generator state left behind. *)
Abbreviation core := (N → Z → list (list Qc) → list Z * list (list Qc) * N)%type.

Section Handler.

(** Lloyd iterations from a random initialisation, as scikit-learn runs
    them; not part of this program. *)
Variable lloyd : core.

(** The core at work: it draws from, and advances, the global generator. *)
Definition run_lloyd (k : Z) (Xf : list (list Qc)) : M KMeans :=
  λ w, let '(labels, centers, rs) := lloyd (random_state w) k Xf in
       (Ok (mkKMeans (PyInt k) (Some labels) (Some centers)),
        mkWorld (frames w) rs (fit_log w)).

(** [k_means.fit(X)]: the request is passed to scikit-learn, which
    validates it and then runs the core. *)
Definition KMeans_fit (km : KMeans) (X : list (list Cell)) : M KMeans :=
  log_fit (n_clusters km) X;;
  p ← lift (validate_fit km X);
  run_lloyd p.1 p.2.

(** The module-level name [iris_data]. *)
Definition iris_data : positive := 1%positive.

(** The callback, statement by statement. *)
Definition run_clustering (x_var y_var : string) (num_clusters n_clicks : PyVal)
    : M (Figure * list (gmap string Cell)) :=
  (num_clusters ← lift (py_max num_clusters (PyInt 1));
   df ← copy_deep iris_data;
   let k_means := KMeans_new num_clusters in
   frame ← read df;
   feats ← lift (getitem_list frame [x_var; y_var]);
   k_means ← KMeans_fit k_means (values (mkDataFrame (df_len frame) feats));
   labels ← lift (fitted (labels_ k_means));
   setitem_at df "Cluster" (map (λ l, CStr (py_str l)) labels);;
   ids ← lift (py_range num_clusters);
   let cluster_ids_sorted := map py_str ids in
   frame ← read df;
   let fig := px_scatter frame x_var y_var "Cluster"
                {["Cluster" := cluster_ids_sorted]} in
   centers ← lift (fitted (cluster_centers_ k_means));
   centroid_df ← lift (pd_DataFrame centers [x_var; y_var]);
   cx ← lift (getitem centroid_df x_var);
   cy ← lift (getitem centroid_df y_var);
   let centroid_fig :=
     mkGoScatter cx cy "markers" (mkMarker "black" 16 "star-triangle-up")
                 "Centroids" in
   let fig := add_trace fig centroid_fig in
   frame ← read df;
   mret (fig, to_dict_records frame)).

End Handler.

(** ** Start-up *)

(** One row of the bundled table. *)
Record Flower := mkFlower {
  sepal_length : Qc;
  sepal_width : Qc;
  petal_length : Qc;
  petal_width : Qc;
  species : string;
  species_id : Z
}.

(** Modelled from the spec: the table behind [px.data.iris()] ships with
    plotly and is not part of the sources.  The spec gives it four numeric
    measurements, a species label and a species identifier per row; the
    column labels are the keys of the renaming in the source.  The rows
    themselves are a parameter. *)
Definition px_data_iris (bundle : list Flower) : DataFrame :=
  mkDataFrame (length bundle)
    [ ("sepal_length", map (λ f, CFloat (sepal_length f)) bundle);
      ("sepal_width", map (λ f, CFloat (sepal_width f)) bundle);
      ("petal_length", map (λ f, CFloat (petal_length f)) bundle);
      ("petal_width", map (λ f, CFloat (petal_width f)) bundle);
      ("species", map (λ f, CStr (species f)) bundle);
      ("species_id", map (λ f, CInt (species_id f)) bundle) ].

Definition renaming : gmap string string :=
  list_to_map
    [ ("sepal_length", "Sepal length (cm)");
      ("sepal_width", "Sepal width (cm)");
      ("petal_length", "Petal length (cm)");
      ("petal_width", "Petal width (cm)");
      ("species", "Species");
      ("species_id", "Species ID") ].

(** The frame [iris_data] is bound to once the module has been loaded. *)
Definition base_frame (bundle : list Flower) : DataFrame :=
  rename renaming (px_data_iris bundle).

(** The attributes offered by both dropdowns. *)
Definition iris_cols : list string :=
  [ "Sepal length (cm)"; "Sepal width (cm)";
    "Petal length (cm)"; "Petal width (cm)" ].

(** The process right after module load. *)
Definition startup (bundle : list Flower) (rs : N) : World :=
  mkWorld {[ iris_data := base_frame bundle ]} rs [].

(** A request is what the callback is fired with. *)
Record Request := mkRequest {
  req_x : string;
  req_y : string;
  req_clusters : PyVal;
  req_clicks : PyVal
}.

(** The process serving a sequence of requests; what a request raises is
    shown to the user and the process carries on. *)
Definition serve (lloyd : core) (reqs : list Request) (w : World) : World :=
  foldl (λ w r, (run_clustering lloyd (req_x r) (req_y r) (req_clusters r)
                   (req_clicks r) w).2) w reqs.

(** ** Interface of the numerical core

    What scikit-learn documents about a fit on validated input ([k] at
    least 1 and at most the number of samples): [labels_] has one entry per
    sample, each the index of a cluster; [cluster_centers_] has one row per
    cluster and one entry per feature.  Nothing is assumed about the values
    of the centres: they come out of floating-point arithmetic. *)

Definition valid_input (k : Z) (X : list (list Qc)) : Prop :=
  1 ≤ k ≤ Z.of_nat (length X).

Definition labels_per_sample (lloyd : core) : Prop :=
  ∀ rs k X, valid_input k X → length (lloyd rs k X).1.1 = length X.

Definition labels_in_range (lloyd : core) : Prop :=
  ∀ rs k X, valid_input k X → Forall (λ l, 0 ≤ l < k) (lloyd rs k X).1.1.

Definition centers_shape (lloyd : core) : Prop :=
  ∀ rs k X, valid_input k X →
    length (lloyd rs k X).1.2 = Z.to_nat k ∧
    Forall (λ c, length c = n_features X) (lloyd rs k X).1.2.

(** ** A run that returns

    [returns_with lloyd x y num w fig recs w']: started in [w], a run that
    goes through every statement returns the chart [fig] and the records
    [recs] and leaves the store [w']; the constructor names what each
    statement produced on the way. *)
Inductive returns_with (lloyd : core) (x_var y_var : string) (num : PyVal)
    (w : World) : Figure → list (gmap string Cell) → World → Prop :=
  | Returns k base feats Xf labels centers rs frame centroid_df cx cy df :
      py_max num (PyInt 1) = Ok (PyInt k) →
      frames w !! iris_data = Some base →
      frames w !! df = None →
      getitem_list base [x_var; y_var] = Ok feats →
      check_array (values (mkDataFrame (df_len base) feats)) = Ok Xf →
      1 ≤ k ≤ Z.of_nat (length Xf) →
      lloyd (random_state w) k Xf = (labels, centers, rs) →
      setitem base "Cluster" (map (λ l, CStr (py_str l)) labels) = Ok frame →
      pd_DataFrame centers [x_var; y_var] = Ok centroid_df →
      getitem centroid_df x_var = Ok cx →
      getitem centroid_df y_var = Ok cy →
      returns_with lloyd x_var y_var num w
        (mkFigure frame x_var y_var "Cluster"
           {["Cluster" := map py_str (seqZ 0 k)]}
           [mkGoScatter cx cy "markers" (mkMarker "black" 16 "star-triangle-up")
              "Centroids"])
        (to_dict_records frame)
        (mkWorld (<[df := frame]> (frames w)) rs
           (fit_log w ++
            [(PyInt k, values (mkDataFrame (df_len base) feats))])).

(** The dictionary [to_dict("records")] makes of one row of the table. *)
Definition flower_record (f : Flower) : gmap string Cell :=
  <["Sepal length (cm)" := CFloat (sepal_length f)]>
  (<["Sepal width (cm)" := CFloat (sepal_width f)]>
  (<["Petal length (cm)" := CFloat (petal_length f)]>
  (<["Petal width (cm)" := CFloat (petal_width f)]>
  (<["Species" := CStr (species f)]>
  (<["Species ID" := CInt (species_id f)]> ∅))))).

(** The rows of a two-column table. *)
Definition pairs {A} (l1 l2 : list A) : list (list A) :=
  zip_with (λ a b, [a; b]) l1 l2.

(** ** Weakest preconditions *)

(** [wp m Q E w]: run from [w], the computation [m] either returns a value
    and a store satisfying [Q], or raises with an exception and a store
    satisfying [E]. *)
Definition wp {A} (m : M A) (Q : A → World → Prop) (E : exn → World → Prop)
    (w : World) : Prop :=
  match m w with
  | (Ok a, w') => Q a w'
  | (Err e, w') => E e w'
  end.

(** ** A concrete core and a concrete table

    A deterministic stand-in for the numerical core (sample [i] goes to
    cluster [i mod k], every centre is the mean of its cluster) and a table
    of 150 rows, on which the statements below are instantiated. *)

Definition cluster_of (labels : list Z) (X : list (list Qc)) (j : Z)
    : list (list Qc) :=
  omap (λ p : Z * list Qc, if decide (p.1 = j) then Some p.2 else None)
       (zip labels X).

Definition round_robin (rs : N) (k : Z) (X : list (list Qc))
    : list Z * list (list Qc) * N :=
  let labels := imap (λ i _, Z.of_nat i `mod` k) X in
  (labels,
   map (λ j, map (λ f, mean (feature f (cluster_of labels X j)))
                 (seq 0 (n_features X)))
       (seqZ 0 k),
   N.succ rs).





Definition tenths (z : Z) : Qc := Q2Qc (z # 10).

Definition sample_flower (i : nat) : Flower :=
  let z := Z.of_nat i in
  mkFlower (tenths (43 + z `mod` 36)) (tenths (20 + z `mod` 25))
           (tenths (10 + z `mod` 60)) (tenths (1 + z `mod` 25))
           (if decide (z < 50) then "setosa"
            else if decide (z < 100) then "versicolor" else "virginica")
           (1 + z / 50).

Definition sample_bundle : list Flower := map sample_flower (seq 0 150).

Definition sample_world : World := startup sample_bundle 0.

(** The value of a computation that returned. *)
Definition returned {A} (d : A) (r : result A * World) : A :=
  match r.1 with
  | Ok a => a
  | Err _ => d
  end.

Definition is_ok {A} (r : result A) : bool :=
  match r with
  | Ok _ => true
  | Err _ => false
  end.

Definition no_figure : Figure := mkFigure (mkDataFrame 0 []) "" "" "" ∅ [].

Definition sample_run (x y : string) (n : Z) : Figure * list (gmap string Cell) :=
  returned (no_figure, [])
    (run_clustering round_robin x y (PyInt n) PyNone sample_world).

(** A short table, and a process that has already served two requests on
    it (the first of them refused). *)
Definition short_bundle : list Flower := map sample_flower (seq 0 6).

Definition served_world : World :=
  serve round_robin
    [ mkRequest "Sepal length (cm)" "Species" (PyInt 2) PyNone;
      mkRequest "Petal length (cm)" "Petal width (cm)" (PyInt 3) (PyInt 1) ]
    (startup short_bundle 7).

(** ** The page

    The layout is kept as the tree of components the module builds; of each
    component the arguments given in the source are kept. *)

Local Set Warnings "-register-all".
Inductive Component :=
  | dbc_Container (children : list Component) (fluid : bool)
  | dbc_Row (children : list Component)
  | dbc_Col (children : list Component) (width : Z) (align : option string)
  | html_Div (text className : string)
  | dbc_Label (text : string)
  | dcc_Dropdown (options : list (string * string)) (value : string)
      (id : string)
  | dbc_Input (id type : string) (value : PyVal)
  | dbc_Button (text id : string)
  | dcc_Graph (id : string)
  | dash_table_DataTable (id : string) (page_size : Z)
      (style_table : list (string * string)).

(** [[{"label": col, "value": col} for col in iris_cols]], an option being
    its label and its value. *)
Definition column_options (cols : list string) : list (string * string) :=
  map (λ col, (col, col)) cols.

Definition layout : Component :=
  dbc_Container
    [ dbc_Row [html_Div "Iris Clustering" "text-primary text-center fs-3"];
      dbc_Row
        [ dbc_Col
            [ dbc_Label "x-axis";
              dcc_Dropdown (column_options iris_cols) "Sepal length (cm)"
                "x-dropdown" ]
            4 None;
          dbc_Col
            [ dbc_Label "y-axis";
              dcc_Dropdown (column_options iris_cols) "Sepal width (cm)"
                "y-dropdown" ]
            4 None;
          dbc_Col
            [ dbc_Label "Number of clusters";
              dbc_Input "cluster-input" "number" (PyInt 3) ]
            3 None;
          dbc_Col [dbc_Button "Apply" "apply-button"] 1 (Some "end") ];
      dbc_Row [dbc_Col [dcc_Graph "my-graph"] 12 None];
      dbc_Row
        [ dbc_Col
            [dash_table_DataTable "my-table" 10 [("overflowX", "auto")]]
            12 None ] ]
    true.

(** A component and everything below it, in document order. *)
Fixpoint components (c : Component) : list Component :=
  c :: match c with
       | dbc_Container cs _ | dbc_Row cs | dbc_Col cs _ _ =>
           concat (map components cs)
       | _ => []
       end.

Definition component_id (c : Component) : option string :=
  match c with
  | dcc_Dropdown _ _ i | dbc_Input i _ _ | dbc_Button _ i | dcc_Graph i
  | dash_table_DataTable i _ _ => Some i
  | _ => None
  end.

Definition find_component (page : Component) (i : string) : option Component :=
  snd <$> list_find (λ c, component_id c = Some i) (components page).

(** The values a dropdown offers. *)
Definition dropdown_values (page : Component) (i : string) : list string :=
  match find_component page i with
  | Some (dcc_Dropdown options _ _) => map snd options
  | _ => []
  end.

(** The property of a component a callback dependency reads; a property the
    layout does not set reads as [None]. *)
Inductive PropVal :=
  | PStr (s : string)
  | PNum (v : PyVal).

Definition component_prop (c : Component) (name : string) : option PropVal :=
  match c with
  | dcc_Dropdown _ v _ => if decide (name = "value") then Some (PStr v) else None
  | dbc_Input _ _ v => if decide (name = "value") then Some (PNum v) else None
  | dbc_Button _ _ =>
      if decide (name = "n_clicks") then Some (PNum PyNone) else None
  | _ => None
  end.

(** The dependencies of the callback that feed its arguments, as the
    decorator lists them: three [State]s and the [Input]. *)
Definition callback_dependencies : list (string * string) :=
  [ ("x-dropdown", "value"); ("y-dropdown", "value");
    ("cluster-input", "value"); ("apply-button", "n_clicks") ].

(** The arguments the callback is fired with on a page: the properties named
    by the dependencies, in the order listed. *)
Definition callback_args (page : Component)
    : option (string * string * PyVal * PyVal) :=
  match map (λ d : string * string,
               find_component page d.1 ≫= λ c, component_prop c d.2)
            callback_dependencies with
  | [Some (PStr x); Some (PStr y); Some (PNum n); Some (PNum clicks)] =>
      Some (x, y, n, clicks)
  | _ => None
  end.

(** ** Symbolic execution *)

Section Rules.
Context {A B : Type}.
Implicit Types (Q : A → World → Prop) (E : exn → World → Prop).

Lemma wp_ret (a : A) Q E w : Q a w → wp (mret a) Q E w.
Proof. done. Qed.

Lemma wp_raise e Q E w : E e w → wp (raise e) Q E w.
Proof. done. Qed.

Lemma wp_bind (m : M A) (f : A → M B) (Q : B → World → Prop) E w :
  wp m (λ a w', wp (f a) Q E w') E w → wp (m ≫= f) Q E w.
Proof.
  unfold wp, mbind, M_bind. destruct (m w) as [[a|e] w']; done.
Qed.

Lemma wp_lift (r : result A) Q E w :
  (∀ a, r = Ok a → Q a w) → (∀ e, r = Err e → E e w) → wp (lift r) Q E w.
Proof. unfold wp, lift. destruct r; eauto. Qed.

Lemma wp_mono (m : M A) Q Q' E E' w :
  wp m Q E w → (∀ a w', Q a w' → Q' a w') → (∀ e w', E e w' → E' e w') →
  wp m Q' E' w.
Proof. unfold wp. destruct (m w) as [[a|e] w']; eauto. Qed.

Lemma wp_returns (m : M A) Q E w a w' :
  wp m Q E w → m w = (Ok a, w') → Q a w'.
Proof. unfold wp. intros H Hm. by rewrite Hm in H. Qed.

Lemma wp_raises (m : M A) Q E w e w' :
  wp m Q E w → m w = (Err e, w') → E e w'.
Proof. unfold wp. intros H Hm. by rewrite Hm in H. Qed.
End Rules.

Lemma wp_read l (Q : DataFrame → World → Prop) E w :
  (∀ df, frames w !! l = Some df → Q df w) →
  (frames w !! l = None → E NameError w) →
  wp (read l) Q E w.
Proof. unfold wp, read. destruct (frames w !! l); eauto. Qed.

Lemma wp_write l df (Q : unit → World → Prop) E w :
  Q () (mkWorld (<[l := df]> (frames w)) (random_state w) (fit_log w)) →
  wp (write l df) Q E w.
Proof. done. Qed.

Lemma wp_alloc df (Q : positive → World → Prop) E w :
  (∀ l, frames w !! l = None →
        Q l (mkWorld (<[l := df]> (frames w)) (random_state w) (fit_log w))) →
  wp (alloc df) Q E w.
Proof.
  intros H. apply H, not_elem_of_dom, is_fresh.
Qed.

Lemma wp_log_fit n X (Q : unit → World → Prop) E w :
  Q () (mkWorld (frames w) (random_state w) (fit_log w ++ [(n, X)])) →
  wp (log_fit n X) Q E w.
Proof. done. Qed.

Lemma wp_run_lloyd (lloyd : core) k Xf (Q : KMeans → World → Prop) E w :
  (∀ labels centers rs,
     lloyd (random_state w) k Xf = (labels, centers, rs) →
     Q (mkKMeans (PyInt k) (Some labels) (Some centers))
       (mkWorld (frames w) rs (fit_log w))) →
  wp (run_lloyd lloyd k Xf) Q E w.
Proof.
  intros H. unfold wp, run_lloyd.
  destruct (lloyd (random_state w) k Xf) as [[labels centers] rs] eqn:Hl.
  by apply H.
Qed.

Global Arguments py_max : simpl never.
Global Arguments py_range : simpl never.
Global Arguments getitem_list : simpl never.
Global Arguments getitem : simpl never.
Global Arguments setitem : simpl never.
Global Arguments values : simpl never.
Global Arguments to_dict_records : simpl never.
Global Arguments pd_DataFrame : simpl never.
Global Arguments validate_fit : simpl never.
Global Arguments base_frame : simpl never.

(** One step of symbolic execution; the outcome of every step is named. *)
Ltac wp_step :=
  lazymatch goal with
  | |- wp (mret _) _ _ _ => apply wp_ret
  | |- wp (raise _) _ _ _ => apply wp_raise
  | |- wp (_ ≫= _) _ _ _ => apply wp_bind
  | |- wp (lift _) _ _ _ => apply wp_lift; [intros ? ?|intros ? ?]
  | |- wp (read _) _ _ _ => apply wp_read; [intros ? ?|intros ?]
  | |- wp (write _ _) _ _ _ => apply wp_write
  | |- wp (alloc _) _ _ _ => apply wp_alloc; intros ? ?
  | |- wp (log_fit _ _) _ _ _ => apply wp_log_fit
  | |- wp (run_lloyd _ _ _) _ _ _ => apply wp_run_lloyd; intros ? ? ? ?
  | |- wp (copy_deep _) _ _ _ => unfold copy_deep
  | |- wp (setitem_at _ _ _) _ _ _ => unfold setitem_at
  | |- wp (KMeans_fit _ _ _) _ _ _ => unfold KMeans_fit
  end; simpl.

Ltac wp_run := repeat wp_step.

(** Two recorded outcomes of the same step are one. *)
Ltac same_outcome :=
  repeat match goal with
         | H1 : ?t = _, H2 : ?t = _ |- _ => rewrite H1 in H2; simplify_eq
         end.

Lemma returned_eq {A B} (d : A * B) (r : result (A * B) * World) :
  is_ok r.1 = true → r = (Ok ((returned d r).1, (returned d r).2), r.2).
Proof. destruct r as [[[a b]|e] w]; [done|]. intros [=]. Qed.

(** ** The clamp *)

Lemma py_max_int n : py_max (PyInt n) (PyInt 1) = Ok (PyInt (Z.max n 1)).
Proof.
  unfold py_max, py_gt; simpl. case_bool_decide as H.
  - apply Z2Qc_inj_lt in H. do 2 f_equal. lia.
  - rewrite <-Z2Qc_inj_lt in H. do 2 f_equal. lia.
Qed.

(** ** Columns of a frame *)

Lemma filter_none {A} (P : A → Prop) `{∀ a, Decision (P a)} (l : list A) :
  Forall (λ a, ¬ P a) l → filter P l = [].
Proof.
  induction 1 as [|a l Ha _ IH]; [done|]. by rewrite filter_cons_False.
Qed.

Lemma labelled_unique df x c :
  NoDup (columns df).*1 → (x, c) ∈ columns df → labelled x df = [(x, c)].
Proof.
  unfold labelled. induction (columns df) as [|[n d] cs IH]; simpl.
  { by intros _ ?%elem_of_nil. }
  intros [Hn Hnd]%NoDup_cons [[= -> ->]|Hin]%elem_of_cons.
  - rewrite filter_cons_True by done. f_equal.
    apply filter_none, Forall_forall. intros [n' d'] Hin'; simpl; intros ->.
    apply Hn, list_elem_of_fmap. by exists (n, d').
  - rewrite filter_cons_False; [by apply IH|].
    simpl. intros ->. apply Hn, list_elem_of_fmap. by exists (x, c).
Qed.

Lemma labelled_nonempty df x : x ∈ (columns df).*1 → labelled x df ≠ [].
Proof.
  intros ([n d] & -> & Hin)%list_elem_of_fmap Hnil. simpl in Hnil.
  assert ((n, d) ∈ labelled n df) as Hl by (by apply list_elem_of_filter).
  rewrite Hnil in Hl. by apply elem_of_nil in Hl.
Qed.

Lemma getitem_list_pair_Ok df x y :
  x ∈ (columns df).*1 → y ∈ (columns df).*1 →
  getitem_list df [x; y] = Ok (labelled x df ++ labelled y df).
Proof.
  intros Hx%labelled_nonempty Hy%labelled_nonempty. unfold getitem_list.
  destruct (labelled x df) eqn:Ex; [done|].
  destruct (labelled y df) eqn:Ey; [done|]. by rewrite app_nil_r.
Qed.

(** ** What a run does to the store *)

Lemma run_clustering_frames lloyd x y num clicks w :
  wp (run_clustering lloyd x y num clicks)
     (λ _ w', frames w ⊆ frames w') (λ _ w', frames w ⊆ frames w') w.
Proof.
  unfold run_clustering. wp_run;
    rewrite ?insert_insert_eq; try done; by apply insert_subseteq.
Qed.

Lemma run_clustering_preserves lloyd x y num clicks w :
  frames w ⊆ frames (run_clustering lloyd x y num clicks w).2.
Proof.
  pose proof (run_clustering_frames lloyd x y num clicks w) as H.
  unfold wp in H. by destruct (run_clustering _ _ _ _ _ w) as [[?|?] ?].
Qed.

Lemma serve_preserves lloyd reqs w : frames w ⊆ frames (serve lloyd reqs w).
Proof.
  revert w. induction reqs as [|r reqs IH]; intros w; [done|].
  simpl. etrans; [|apply IH]. apply run_clustering_preserves.
Qed.

Lemma serve_iris_data lloyd bundle rs reqs :
  frames (serve lloyd reqs (startup bundle rs)) !! iris_data
  = Some (base_frame bundle).
Proof.
  eapply lookup_weaken; [|apply serve_preserves].
  apply lookup_singleton_eq.
Qed.

(** The fit requested by a run, when the frame has both columns. *)
Lemma run_clustering_fit_log lloyd x y num n clicks w df :
  py_max num (PyInt 1) = Ok n →
  frames w !! iris_data = Some df →
  x ∈ (columns df).*1 → y ∈ (columns df).*1 →
  fit_log (run_clustering lloyd x y num clicks w).2
  = fit_log w ++
    [(n, values (mkDataFrame (df_len df) (labelled x df ++ labelled y df)))].
Proof.
  intros Hmax Hdf Hx Hy.
  pose proof (getitem_list_pair_Ok df x y Hx Hy) as Hfeats.
  cut (wp (run_clustering lloyd x y num clicks)
          (λ _ w', fit_log w' = fit_log w ++
             [(n, values (mkDataFrame (df_len df)
                            (labelled x df ++ labelled y df)))])
          (λ _ w', fit_log w' = fit_log w ++
             [(n, values (mkDataFrame (df_len df)
                            (labelled x df ++ labelled y df)))]) w).
  { unfold wp. by destruct (run_clustering _ _ _ _ _ w) as [[?|?] ?]. }
  unfold run_clustering. wp_run; simplify_map_eq; same_outcome; done.
Qed.

(** ** Claims about the clamp and the store *)

(** C10: with the cluster count absent ([None]) the callback raises a
    [TypeError] at the clamp, [max(None, 1)], for any core and any other
    inputs; the store is exactly as before, so no frame has been copied and
    no fit has been requested. *)
Theorem absent_count_raises (lloyd : core) x y clicks w :
  py_max PyNone (PyInt 1) = Err TypeError ∧
  run_clustering lloyd x y PyNone clicks w = (Err TypeError, w).
Proof. done. Qed.

(** C1: for every integer cluster count [n ≤ 0] the clamp yields 1, the
    run is the run for a requested count of 1, and the one fit it requests
    from scikit-learn asks for exactly 1 cluster. *)
Theorem clamp_nonpositive (lloyd : core) x y n clicks w df :
  n ≤ 0 →
  frames w !! iris_data = Some df →
  x ∈ (columns df).*1 → y ∈ (columns df).*1 →
  py_max (PyInt n) (PyInt 1) = Ok (PyInt 1) ∧
  run_clustering lloyd x y (PyInt n) clicks w
  = run_clustering lloyd x y (PyInt 1) clicks w ∧
  ∃ X, fit_log (run_clustering lloyd x y (PyInt n) clicks w).2
       = fit_log w ++ [(PyInt 1, X)].
Proof.
  intros Hn Hdf Hx Hy.
  assert (py_max (PyInt n) (PyInt 1) = Ok (PyInt 1)) as Hmax.
  { rewrite py_max_int. do 2 f_equal. lia. }
  split; [done|]. split.
  - unfold run_clustering. by rewrite Hmax.
  - eexists. by apply run_clustering_fit_log.
Qed.

Lemma clamp_nonpositive_witness :
  py_max (PyInt (-2)) (PyInt 1) = Ok (PyInt 1) ∧
  run_clustering round_robin "Petal length (cm)" "Petal width (cm)"
    (PyInt (-2)) PyNone sample_world
  = run_clustering round_robin "Petal length (cm)" "Petal width (cm)"
      (PyInt 1) PyNone sample_world ∧
  ∃ X, fit_log (run_clustering round_robin "Petal length (cm)"
                  "Petal width (cm)" (PyInt (-2)) PyNone sample_world).2
       = fit_log sample_world ++ [(PyInt 1, X)].
Proof.
  apply (clamp_nonpositive round_robin _ _ (-2) PyNone sample_world
           (base_frame sample_bundle)).
  - lia.
  - reflexivity.
  - apply list_elem_of_In. vm_compute. tauto.
  - apply list_elem_of_In. vm_compute. tauto.
Defined.

(** C7: a run leaves every frame of the store as it was, whatever the
    inputs and however it ends: the callback only writes to the copy it
    allocates.  Hence, after any sequence of requests, [iris_data] is still
    bound to the frame built at start-up. *)
Theorem base_dataset_unchanged (lloyd : core) :
  (∀ x y num clicks w,
     frames w ⊆ frames (run_clustering lloyd x y num clicks w).2) ∧
  (∀ bundle rs reqs,
     frames (serve lloyd reqs (startup bundle rs)) !! iris_data
     = Some (base_frame bundle)) ∧
  (∀ bundle rs reqs x y num clicks,
     frames (run_clustering lloyd x y num clicks
               (serve lloyd reqs (startup bundle rs))).2 !! iris_data
     = Some (base_frame bundle)).
Proof.
  split; [|split].
  - intros. apply run_clustering_preserves.
  - apply serve_iris_data.
  - intros. eapply lookup_weaken; [apply serve_iris_data|].
    apply run_clustering_preserves.
Qed.

(** ** Runs that return *)

Lemma validate_fit_inv n X p :
  validate_fit (KMeans_new n) X = Ok p →
  n = PyInt p.1 ∧ check_array X = Ok p.2 ∧ 1 ≤ p.1 ≤ Z.of_nat (length p.2).
Proof.
  unfold validate_fit; simpl. destruct n as [|k|q]; try done.
  case_decide; [|done]. destruct (check_array X) as [Xf|]; [|done].
  case_decide; [|done]. intros [= <-]. simpl. auto with lia.
Qed.

Lemma validate_fit_Ok k X Xf :
  check_array X = Ok Xf → 1 ≤ k ≤ Z.of_nat (length Xf) →
  validate_fit (KMeans_new (PyInt k)) X = Ok (k, Xf).
Proof.
  intros HX [??]. unfold validate_fit; simpl. rewrite HX.
  by rewrite !decide_True.
Qed.

Lemma run_clustering_returns lloyd x y num clicks w fig recs w' :
  run_clustering lloyd x y num clicks w = (Ok (fig, recs), w') →
  returns_with lloyd x y num w fig recs w'.
Proof.
  apply (wp_returns _ (λ r, returns_with lloyd x y num w r.1 r.2) (λ _ _, True)).
  unfold run_clustering. wp_run; try done.
  simplify_map_eq. rewrite insert_insert_eq.
  match goal with H : validate_fit _ _ = _ |- _ =>
    apply validate_fit_inv in H as (-> & ? & ?) end.
  match goal with H : py_range _ = _ |- _ => injection H as <- end.
  econstructor; eauto.
Qed.

(** ** Frames: assignment and records *)

Lemma setitem_inv df name arr df' :
  setitem df name arr = Ok df' →
  length arr = df_len df ∧ df_len df' = df_len df.
Proof. unfold setitem. case_decide; [|done]. by intros [= <-]. Qed.

Lemma setitem_new df name arr df' :
  setitem df name arr = Ok df' → name ∉ (columns df).*1 →
  columns df' = columns df ++ [(name, arr)].
Proof.
  unfold setitem. case_decide; [|done]. intros [= <-] Hname. simpl.
  destruct (labelled name df) as [|c cs] eqn:E; [done|].
  destruct Hname. apply list_elem_of_fmap. exists c.
  assert (c ∈ labelled name df) as Hc by (rewrite E; left).
  apply list_elem_of_filter in Hc as [-> ?]. done.
Qed.

Lemma setitem_Ok df name arr :
  length arr = df_len df → ∃ df', setitem df name arr = Ok df'.
Proof. intros H. unfold setitem. rewrite decide_True by done. eauto. Qed.

Lemma length_to_dict_records df : length (to_dict_records df) = df_len df.
Proof. unfold to_dict_records. by rewrite length_map, length_seq. Qed.

Lemma lookup_to_dict_records df i :
  (i < df_len df)%nat → to_dict_records df !! i = Some (record_at df i).
Proof.
  intros Hi. unfold to_dict_records.
  by rewrite list_lookup_fmap, lookup_seq_lt.
Qed.

(** A column appended last shows up as one more key of every record. *)
Lemma record_at_snoc n cols name arr i c :
  arr !! i = Some c →
  record_at (mkDataFrame n (cols ++ [(name, arr)])) i
  = <[name := c]> (record_at (mkDataFrame n cols) i).
Proof.
  intros Hc. unfold record_at; simpl.
  rewrite omap_app, reverse_app. simpl. by rewrite Hc.
Qed.

Lemma record_at_columns n df i :
  record_at (mkDataFrame n (columns df)) i = record_at df i.
Proof. reflexivity. Qed.

(** ** The frame built at start-up *)

Lemma base_frame_eq bundle :
  base_frame bundle =
  mkDataFrame (length bundle)
    [ ("Sepal length (cm)", map (λ f, CFloat (sepal_length f)) bundle);
      ("Sepal width (cm)", map (λ f, CFloat (sepal_width f)) bundle);
      ("Petal length (cm)", map (λ f, CFloat (petal_length f)) bundle);
      ("Petal width (cm)", map (λ f, CFloat (petal_width f)) bundle);
      ("Species", map (λ f, CStr (species f)) bundle);
      ("Species ID", map (λ f, CInt (species_id f)) bundle) ].
Proof. reflexivity. Qed.

Lemma base_frame_labels bundle :
  (columns (base_frame bundle)).*1 =
  iris_cols ++ ["Species"; "Species ID"].
Proof. reflexivity. Qed.

Lemma base_frame_NoDup bundle : NoDup (columns (base_frame bundle)).*1.
Proof.
  rewrite base_frame_labels. apply (bool_decide_unpack _). by vm_compute.
Qed.

Lemma base_frame_no_cluster bundle :
  "Cluster" ∉ (columns (base_frame bundle)).*1.
Proof.
  rewrite base_frame_labels. apply (bool_decide_unpack _). by vm_compute.
Qed.

Lemma base_frame_record bundle i f :
  bundle !! i = Some f →
  record_at (base_frame bundle) i = flower_record f.
Proof.
  intros Hf. rewrite base_frame_eq. unfold record_at; simpl.
  rewrite !list_lookup_fmap, Hf. reflexivity.
Qed.

Lemma base_frame_records bundle :
  to_dict_records (base_frame bundle) = map flower_record bundle.
Proof.
  apply list_eq. intros i. rewrite list_lookup_fmap.
  destruct (bundle !! i) as [f|] eqn:Hf; simpl.
  - rewrite lookup_to_dict_records by (by eapply lookup_lt_Some).
    f_equal. by apply base_frame_record.
  - apply lookup_ge_None. rewrite length_to_dict_records.
    by apply lookup_ge_None in Hf.
Qed.

(** C2: in a store where [iris_data] is the start-up frame of a 150-row
    table, whatever the inputs, the records a run returns are 150. *)
Theorem table_row_count (lloyd : core) bundle x y num clicks w fig recs w' :
  length bundle = 150%nat →
  frames w !! iris_data = Some (base_frame bundle) →
  run_clustering lloyd x y num clicks w = (Ok (fig, recs), w') →
  length recs = 150%nat.
Proof.
  intros Hlen Hbase Hrun%run_clustering_returns.
  destruct Hrun as [k base feats Xf labels centers rs frame cdf cx cy df
                      _ Hb _ _ _ _ _ Hset _ _ _].
  rewrite Hbase in Hb. injection Hb as <-.
  apply setitem_inv in Hset as [_ Hset].
  by rewrite length_to_dict_records, Hset.
Qed.

Lemma table_row_count_witness :
  length (sample_run "Sepal length (cm)" "Sepal width (cm)" 3).2 = 150%nat.
Proof.
  apply (table_row_count round_robin sample_bundle
           "Sepal length (cm)" "Sepal width (cm)" (PyInt 3) PyNone sample_world
           (sample_run "Sepal length (cm)" "Sepal width (cm)" 3).1 _
           (run_clustering round_robin "Sepal length (cm)" "Sepal width (cm)"
              (PyInt 3) PyNone sample_world).2).
  - reflexivity.
  - reflexivity.
  - apply returned_eq. vm_compute. reflexivity.
Defined.

(** ** Cluster labels as text *)

Lemma py_str_inj a b : py_str a = py_str b → a = b.
Proof. apply (inj (pretty : Z → string)). Qed.

Lemma cluster_ids_lookup k i a :
  map py_str (seqZ 0 k) !! i = Some (py_str a)
  ↔ a = Z.of_nat i ∧ Z.of_nat i < k.
Proof.
  change (map py_str (seqZ 0 k)) with (py_str <$> seqZ 0 k).
  rewrite list_lookup_fmap. split.
  - destruct (seqZ 0 k !! i) as [a'|] eqn:E; [|done]. simpl.
    intros [= ->%py_str_inj]. apply lookup_seqZ in E. lia.
  - intros [-> Hi]. by rewrite lookup_seqZ_lt.
Qed.

(** C5: the category order handed to the chart for "Cluster" is
    "0", "1", ..., "N-1" for the effective cluster count N: position [i]
    holds the text of the number [i].  For N > 10 this puts "2" and "9"
    before "10", although "10" sorts before "2" as text. *)
Theorem legend_numeric_order (lloyd : core) x y num clicks w fig recs w' :
  run_clustering lloyd x y num clicks w = (Ok (fig, recs), w') →
  ∃ N, py_max num (PyInt 1) = Ok (PyInt N) ∧
       category_orders fig !! "Cluster" = Some (map py_str (seqZ 0 N)) ∧
       (∀ i a, map py_str (seqZ 0 N) !! i = Some (py_str a)
               ↔ a = Z.of_nat i ∧ Z.of_nat i < N) ∧
       (10 < N →
        map py_str (seqZ 0 N) !! 2%nat = Some "2" ∧
        map py_str (seqZ 0 N) !! 9%nat = Some "9" ∧
        map py_str (seqZ 0 N) !! 10%nat = Some "10" ∧
        String.ltb "10" "2" = true).
Proof.
  intros Hrun%run_clustering_returns.
  destruct Hrun as [k base feats Xf labels centers rs frame cdf cx cy df
                      Hmax _ _ _ _ _ _ _ _ _ _].
  exists k. split; [done|]. split; [apply lookup_singleton_eq|].
  split; [apply cluster_ids_lookup|]. intros Hk.
  repeat split.
  - apply (cluster_ids_lookup k 2 2). lia.
  - apply (cluster_ids_lookup k 9 9). lia.
  - apply (cluster_ids_lookup k 10 10). lia.
Qed.

Lemma legend_numeric_order_witness :
  ∃ N, py_max (PyInt 12) (PyInt 1) = Ok (PyInt N) ∧
       category_orders
         (sample_run "Sepal length (cm)" "Petal length (cm)" 12).1
         !! "Cluster" = Some (map py_str (seqZ 0 N)) ∧
       (∀ i a, map py_str (seqZ 0 N) !! i = Some (py_str a)
               ↔ a = Z.of_nat i ∧ Z.of_nat i < N) ∧
       (10 < N →
        map py_str (seqZ 0 N) !! 2%nat = Some "2" ∧
        map py_str (seqZ 0 N) !! 9%nat = Some "9" ∧
        map py_str (seqZ 0 N) !! 10%nat = Some "10" ∧
        String.ltb "10" "2" = true).
Proof.
  apply (legend_numeric_order round_robin
           "Sepal length (cm)" "Petal length (cm)" (PyInt 12) PyNone
           sample_world _
           (sample_run "Sepal length (cm)" "Petal length (cm)" 12).2
           (run_clustering round_robin "Sepal length (cm)" "Petal length (cm)"
              (PyInt 12) PyNone sample_world).2).
  apply returned_eq. vm_compute. reflexivity.
Defined.

(** ** The centroid frame *)

Lemma length_omap_total {A B} (g : A → option B) (l : list A) :
  Forall (λ a, is_Some (g a)) l → length (omap g l) = length l.
Proof.
  induction 1 as [|a l [b Hb] _ IH]; [done|]. simpl. rewrite Hb. simpl.
  f_equal. exact IH.
Qed.

Lemma pd_DataFrame_inv arr names cdf :
  pd_DataFrame arr names = Ok cdf →
  df_len cdf = length arr ∧ (columns cdf).*1 = names ∧ frame_ok cdf.
Proof.
  unfold pd_DataFrame. case_decide as Hrows; [|done]. intros [= <-].
  split; [done|]. split; simpl.
  - apply list_eq. intros j.
    rewrite list_lookup_fmap, list_lookup_imap. by destruct (names !! j).
  - unfold frame_ok; simpl. apply Forall_forall. intros c Hc.
    apply list_elem_of_lookup in Hc as [j Hj].
    rewrite list_lookup_imap in Hj.
    destruct (names !! j) as [n|] eqn:Hn; [|done]. injection Hj as <-. simpl.
    apply length_omap_total. eapply Forall_impl; [exact Hrows|].
    intros r Hr. simpl in Hr.
    apply lookup_lt_Some in Hn. rewrite <-Hr in Hn.
    apply lookup_lt_is_Some_2 in Hn as [q ->]. by eexists.
Qed.

Lemma pd_DataFrame_Ok arr names :
  Forall (λ r, length r = length names) arr →
  ∃ cdf, pd_DataFrame arr names = Ok cdf.
Proof. intros H. unfold pd_DataFrame. rewrite decide_True by done. eauto. Qed.

Lemma getitem_len df name s :
  frame_ok df → getitem df name = Ok s → sel_len s = df_len df.
Proof.
  intros Hok. unfold getitem.
  destruct (labelled name df) as [|c [|c' cs]] eqn:E; [done| |].
  - intros [= <-]. simpl.
    assert (c ∈ labelled name df) as Hc by (rewrite E; left).
    apply list_elem_of_filter in Hc as [_ Hc].
    by apply (proj1 (Forall_forall _ _) Hok).
  - by intros [= <-].
Qed.

Lemma getitem_Ok df name :
  name ∈ (columns df).*1 → ∃ s, getitem df name = Ok s.
Proof.
  intros H%labelled_nonempty. unfold getitem.
  destruct (labelled name df) as [|c [|c' cs]]; [done|eauto..].
Qed.

(** C4: provided the core returns one centre per cluster (the documented
    shape of [cluster_centers_]), a run that returns has added exactly one
    trace, named "Centroids", whose x and y data have as many positions as
    the effective cluster count. *)
Theorem centroid_count (lloyd : core) x y num clicks w fig recs w' :
  centers_shape lloyd →
  run_clustering lloyd x y num clicks w = (Ok (fig, recs), w') →
  ∃ k tr, py_max num (PyInt 1) = Ok (PyInt k) ∧
          added_traces fig = [tr] ∧
          trace_name tr = "Centroids" ∧
          sel_len (trace_x tr) = Z.to_nat k ∧
          sel_len (trace_y tr) = Z.to_nat k.
Proof.
  intros Hshape Hrun%run_clustering_returns.
  destruct Hrun as [k base feats Xf labels centers rs frame cdf cx cy df
                      Hmax _ _ _ _ Hk Hfit _ Hcdf Hcx Hcy].
  destruct (Hshape (random_state w) k Xf Hk) as [Hlen _].
  rewrite Hfit in Hlen; simpl in Hlen.
  apply pd_DataFrame_inv in Hcdf as (Hn & _ & Hok).
  eexists k, _. split; [done|]. split; [done|]. split; [done|]. simpl.
  rewrite (getitem_len _ _ _ Hok Hcx), (getitem_len _ _ _ Hok Hcy). lia.
Qed.

Lemma round_robin_centers_shape : centers_shape round_robin.
Proof.
  intros rs k X _. unfold round_robin; simpl. split.
  - by rewrite length_map, length_seqZ.
  - apply Forall_forall. intros c (j & -> & _)%list_elem_of_fmap.
    by rewrite length_map, length_seq.
Qed.

Lemma centroid_count_witness :
  ∃ k tr, py_max (PyInt 5) (PyInt 1) = Ok (PyInt k) ∧
          added_traces (sample_run "Petal width (cm)" "Sepal width (cm)" 5).1
          = [tr] ∧
          trace_name tr = "Centroids" ∧
          sel_len (trace_x tr) = Z.to_nat k ∧
          sel_len (trace_y tr) = Z.to_nat k.
Proof.
  apply (centroid_count round_robin
           "Petal width (cm)" "Sepal width (cm)" (PyInt 5) PyNone
           sample_world _
           (sample_run "Petal width (cm)" "Sepal width (cm)" 5).2
           (run_clustering round_robin "Petal width (cm)" "Sepal width (cm)"
              (PyInt 5) PyNone sample_world).2).
  - apply round_robin_centers_shape.
  - apply returned_eq. vm_compute. reflexivity.
Defined.

(** ** The returned records *)

Lemma flower_record_keys f :
  dom (flower_record f)
  = list_to_set (iris_cols ++ ["Species"; "Species ID"]) ∧
  flower_record f !! "Cluster" = None.
Proof.
  unfold flower_record. split.
  - rewrite !dom_insert_L, dom_empty_L. simpl. set_solver.
  - by rewrite !lookup_insert_ne.
Qed.

(** The records of a frame that is the base frame with a "Cluster" column
    appended. *)
Lemma records_with_cluster bundle frame labels :
  setitem (base_frame bundle) "Cluster" (map (λ l, CStr (py_str l)) labels)
  = Ok frame →
  length labels = length bundle ∧
  to_dict_records frame
  = zip_with (λ f z, <["Cluster" := CStr (py_str z)]> (flower_record f))
             bundle labels.
Proof.
  intros Hset.
  pose proof (setitem_new _ _ _ _ Hset (base_frame_no_cluster bundle)) as Hcols.
  apply setitem_inv in Hset as [Harr Hlen].
  rewrite length_map in Harr. change (df_len (base_frame bundle))
    with (length bundle) in *.
  split; [done|]. destruct frame as [n cols].
  cbn [df_len columns] in Hcols, Hlen. subst n cols.
  apply list_eq. intros i. rewrite lookup_zip_with.
  destruct (bundle !! i) as [f|] eqn:Hf; cbn.
  - assert (i < length labels)%nat as Hi
      by (rewrite Harr; by eapply lookup_lt_Some).
    apply lookup_lt_is_Some_2 in Hi as [z Hz]. rewrite Hz. cbn.
    rewrite lookup_to_dict_records by (by eapply lookup_lt_Some).
    f_equal.
    rewrite (record_at_snoc _ _ _ _ _ (CStr (py_str z)))
      by (by rewrite list_lookup_fmap, Hz).
    f_equal. rewrite record_at_columns. by apply base_frame_record.
  - apply lookup_ge_None. rewrite length_to_dict_records.
    by apply lookup_ge_None in Hf.
Qed.

(** C6: with [iris_data] the start-up frame, the records a run returns are
    the records of the base table, row by row, each with one more key,
    "Cluster", bound to the text of an integer.  The base records have
    exactly the six keys of the base columns and no "Cluster" key. *)
Theorem table_columns (lloyd : core) bundle x y num clicks w fig recs w' :
  frames w !! iris_data = Some (base_frame bundle) →
  run_clustering lloyd x y num clicks w = (Ok (fig, recs), w') →
  to_dict_records (base_frame bundle) = map flower_record bundle ∧
  (∀ f, dom (flower_record f)
        = list_to_set (iris_cols ++ ["Species"; "Species ID"]) ∧
        flower_record f !! "Cluster" = None) ∧
  ∃ labels : list Z,
    length labels = length bundle ∧
    recs = zip_with (λ f z, <["Cluster" := CStr (py_str z)]> (flower_record f))
                    bundle labels.
Proof.
  intros Hbase Hrun%run_clustering_returns.
  split; [apply base_frame_records|]. split; [apply flower_record_keys|].
  destruct Hrun as [k base feats Xf labels centers rs frame cdf cx cy df
                      _ Hb _ _ _ _ _ Hset _ _ _].
  rewrite Hbase in Hb. injection Hb as <-.
  exists labels. by apply records_with_cluster.
Qed.

Lemma table_columns_witness :
  to_dict_records (base_frame sample_bundle)
  = map flower_record sample_bundle ∧
  (∀ f, dom (flower_record f)
        = list_to_set (iris_cols ++ ["Species"; "Species ID"]) ∧
        flower_record f !! "Cluster" = None) ∧
  ∃ labels : list Z,
    length labels = length sample_bundle ∧
    (sample_run "Sepal length (cm)" "Sepal width (cm)" 3).2
    = zip_with (λ f z, <["Cluster" := CStr (py_str z)]> (flower_record f))
               sample_bundle labels.
Proof.
  apply (table_columns round_robin sample_bundle
           "Sepal length (cm)" "Sepal width (cm)" (PyInt 3) PyNone sample_world
           (sample_run "Sepal length (cm)" "Sepal width (cm)" 3).1 _
           (run_clustering round_robin "Sepal length (cm)" "Sepal width (cm)"
              (PyInt 3) PyNone sample_world).2).
  - reflexivity.
  - apply returned_eq. vm_compute. reflexivity.
Defined.

(** ** The samples handed to k-means *)

Lemma values_pair n x y (cx cy : list Cell) :
  length cx = n → length cy = n →
  values (mkDataFrame n [(x, cx); (y, cy)]) = pairs cx cy.
Proof.
  intros Hx Hy. apply list_eq. intros i. unfold values, pairs.
  rewrite list_lookup_fmap, lookup_zip_with. cbn [df_len columns].
  destruct (decide (i < n)%nat) as [Hi|Hi].
  - rewrite lookup_seq_lt by done.
    destruct (lookup_lt_is_Some_2 cx i) as [a Ha]; [lia|].
    destruct (lookup_lt_is_Some_2 cy i) as [b Hb]; [lia|].
    cbn. by rewrite Ha, Hb.
  - rewrite lookup_seq_ge by lia. by rewrite (lookup_ge_None_2 cx) by lia.
Qed.

Lemma check_array_floats (qx qy : list Qc) :
  check_array (pairs (CFloat <$> qx) (CFloat <$> qy)) = Ok (pairs qx qy).
Proof.
  unfold check_array, pairs.
  cut (mapM (mapM as_float)
         (zip_with (λ a b, [a; b]) (CFloat <$> qx) (CFloat <$> qy))
       = Some (zip_with (λ a b, [a; b]) qx qy)); [by intros ->|].
  revert qy. induction qx as [|a qx IH]; intros [|b qy]; try done.
  cbn. specialize (IH qy). cbn in IH. by rewrite IH.
Qed.

Lemma length_pairs {A} (l1 l2 : list A) :
  length l1 = length l2 → length (pairs l1 l2) = length l1.
Proof. intros H. unfold pairs. rewrite length_zip_with. lia. Qed.

Lemma n_features_pairs {A} (l1 l2 : list A) :
  length l1 = length l2 → l1 ≠ [] → n_features (pairs l1 l2) = 2%nat.
Proof. destruct l1, l2; done. Qed.

(** The four attributes are columns of numbers spanning the table. *)
Lemma attribute_column bundle x :
  x ∈ iris_cols →
  ∃ qx : list Qc, length qx = length bundle ∧
                  (x, CFloat <$> qx) ∈ columns (base_frame bundle).
Proof.
  unfold iris_cols. rewrite base_frame_eq. cbn [columns].
  intros H. repeat (apply elem_of_cons in H as [->|H]).
  - exists (sepal_length <$> bundle). rewrite length_fmap, <-list_fmap_compose.
    split; [done|]. set_solver.
  - exists (sepal_width <$> bundle). rewrite length_fmap, <-list_fmap_compose.
    split; [done|]. set_solver.
  - exists (petal_length <$> bundle). rewrite length_fmap, <-list_fmap_compose.
    split; [done|]. set_solver.
  - exists (petal_width <$> bundle). rewrite length_fmap, <-list_fmap_compose.
    split; [done|]. set_solver.
  - by apply elem_of_nil in H.
Qed.

Lemma column_label df x c : (x, c) ∈ columns df → x ∈ (columns df).*1.
Proof. intros H. apply list_elem_of_fmap. by exists (x, c). Qed.

Lemma omap_as_float (q : list Qc) : omap as_float (CFloat <$> q) = q.
Proof. induction q as [|a q IH]; [done|]. cbn. f_equal. exact IH. Qed.

(** ** Runs that go through *)

(** The converse of [run_clustering_returns]: when every statement has an
    outcome, the run returns what the outcomes make up. *)
Lemma run_clustering_complete lloyd x y num clicks w
    k base feats Xf labels centers rs frame cdf cx cy :
  py_max num (PyInt 1) = Ok (PyInt k) →
  frames w !! iris_data = Some base →
  getitem_list base [x; y] = Ok feats →
  check_array (values (mkDataFrame (df_len base) feats)) = Ok Xf →
  1 ≤ k ≤ Z.of_nat (length Xf) →
  lloyd (random_state w) k Xf = (labels, centers, rs) →
  setitem base "Cluster" (map (λ l, CStr (py_str l)) labels) = Ok frame →
  pd_DataFrame centers [x; y] = Ok cdf →
  getitem cdf x = Ok cx →
  getitem cdf y = Ok cy →
  ∃ fig recs w', run_clustering lloyd x y num clicks w = (Ok (fig, recs), w').
Proof.
  intros Hmax Hbase Hfeats HX Hk Hfit Hset Hcdf Hcx Hcy.
  pose proof (validate_fit_Ok k _ _ HX Hk) as Hval.
  cut (wp (run_clustering lloyd x y num clicks) (λ _ _, True) (λ _ _, False) w).
  { unfold wp. destruct (run_clustering _ _ _ _ _ w) as [[[fig recs]|e] w'];
      [eauto|done]. }
  unfold run_clustering. wp_run; try done;
    simplify_map_eq; same_outcome; simpl in *; same_outcome.
Qed.

Lemma column_unique df x c c' :
  NoDup (columns df).*1 → (x, c) ∈ columns df → (x, c') ∈ columns df → c = c'.
Proof.
  intros Hnd H1 H2.
  pose proof (labelled_unique df x c Hnd H1) as E1.
  pose proof (labelled_unique df x c' Hnd H2) as E2.
  rewrite E1 in E2. by injection E2.
Qed.

(** On the start-up frame, with two attribute columns and an integer count
    whose clamped value does not exceed the number of rows, every statement
    of the callback goes through, provided the core returns one label per
    sample and centres of the documented shape. *)
Lemma run_on_attributes lloyd bundle x y n clicks w qx qy :
  labels_per_sample lloyd → centers_shape lloyd →
  frames w !! iris_data = Some (base_frame bundle) →
  (x, CFloat <$> qx) ∈ columns (base_frame bundle) →
  (y, CFloat <$> qy) ∈ columns (base_frame bundle) →
  length qx = length bundle → length qy = length bundle →
  Z.max n 1 ≤ Z.of_nat (length bundle) →
  ∃ labels centers rs frame cdf cx cy df,
    lloyd (random_state w) (Z.max n 1) (pairs qx qy) = (labels, centers, rs) ∧
    setitem (base_frame bundle) "Cluster" (map (λ l, CStr (py_str l)) labels)
    = Ok frame ∧
    pd_DataFrame centers [x; y] = Ok cdf ∧
    getitem cdf x = Ok cx ∧ getitem cdf y = Ok cy ∧
    run_clustering lloyd x y (PyInt n) clicks w
    = (Ok (mkFigure frame x y "Cluster"
             {["Cluster" := map py_str (seqZ 0 (Z.max n 1))]}
             [mkGoScatter cx cy "markers"
                (mkMarker "black" 16 "star-triangle-up") "Centroids"],
           to_dict_records frame),
       mkWorld (<[df := frame]> (frames w)) rs
         (fit_log w ++
          [(PyInt (Z.max n 1), pairs (CFloat <$> qx) (CFloat <$> qy))])).
Proof.
  intros Hlab Hshape Hbase Hx Hy Hqx Hqy Hn.
  pose proof (base_frame_NoDup bundle) as Hnd.
  assert (getitem_list (base_frame bundle) [x; y]
          = Ok [(x, CFloat <$> qx); (y, CFloat <$> qy)]) as Hfeats.
  { rewrite getitem_list_pair_Ok by (by eapply column_label).
    by rewrite (labelled_unique _ _ _ Hnd Hx), (labelled_unique _ _ _ Hnd Hy). }
  assert (values (mkDataFrame (df_len (base_frame bundle))
                    [(x, CFloat <$> qx); (y, CFloat <$> qy)])
          = pairs (CFloat <$> qx) (CFloat <$> qy)) as Hvals.
  { apply values_pair; by rewrite length_fmap. }
  assert (length (pairs qx qy) = length bundle) as Hlen
    by (rewrite length_pairs; congruence).
  assert (valid_input (Z.max n 1) (pairs qx qy)) as Hvalid
    by (unfold valid_input; lia).
  destruct (lloyd (random_state w) (Z.max n 1) (pairs qx qy))
    as [[labels centers] rs] eqn:Hfit.
  destruct (setitem_Ok (base_frame bundle) "Cluster"
              (map (λ l, CStr (py_str l)) labels)) as [frame Hset].
  { rewrite length_map. specialize (Hlab (random_state w) _ _ Hvalid).
    rewrite Hfit in Hlab. simpl in Hlab. by rewrite Hlab, Hlen. }
  destruct (pd_DataFrame_Ok centers [x; y]) as [cdf Hcdf].
  { destruct (Hshape (random_state w) _ _ Hvalid) as [_ Hrows].
    rewrite Hfit in Hrows. simpl in Hrows.
    rewrite n_features_pairs in Hrows; [done|congruence|].
    intros ->. simpl in Hqx. lia. }
  pose proof (pd_DataFrame_inv _ _ _ Hcdf) as (_ & Hnames & _).
  destruct (getitem_Ok cdf x) as [cx Hcx]; [rewrite Hnames; left|].
  destruct (getitem_Ok cdf y) as [cy Hcy]; [rewrite Hnames; right; left|].
  destruct (run_clustering_complete lloyd x y (PyInt n) clicks w
              (Z.max n 1) (base_frame bundle)
              [(x, CFloat <$> qx); (y, CFloat <$> qy)] (pairs qx qy)
              labels centers rs frame cdf cx cy) as (fig & recs & w' & Hrun);
    try done.
  { apply py_max_int. }
  { rewrite Hvals. apply check_array_floats. }
  pose proof (run_clustering_returns _ _ _ _ _ _ _ _ _ Hrun) as Hret.
  destruct Hret as [k' base' feats' Xf' labels' centers' rs' frame' cdf' cx' cy'
                      df Hmax' Hb' Hdf' Hf' HX' Hk' Hfit' Hset' Hcdf' Hcx' Hcy'].
  rewrite py_max_int in Hmax'. injection Hmax' as <-.
  rewrite Hbase in Hb'. injection Hb' as <-.
  rewrite Hfeats in Hf'. injection Hf' as <-.
  rewrite Hvals in *. rewrite check_array_floats in HX'. injection HX' as <-.
  rewrite Hfit in Hfit'. injection Hfit' as <- <- <-.
  rewrite Hset in Hset'. injection Hset' as <-.
  rewrite Hcdf in Hcdf'. injection Hcdf' as <-.
  rewrite Hcx in Hcx'. injection Hcx' as <-.
  rewrite Hcy in Hcy'. injection Hcy' as <-.
  by exists labels, centers, rs, frame, cdf, cx, cy, df.
Qed.

(** The stand-in core meets the interface. *)

Lemma round_robin_labels_per_sample : labels_per_sample round_robin.
Proof. intros rs k X _. unfold round_robin; simpl. apply length_imap. Qed.

Lemma round_robin_labels_in_range : labels_in_range round_robin.
Proof.
  intros rs k X [Hk _]. unfold round_robin; simpl.
  apply Forall_lookup. intros i l. rewrite list_lookup_imap.
  destruct (X !! i); [|done]. intros [= <-]. apply Z.mod_pos_bound. lia.
Qed.

(** ** The same attribute on both axes *)

(** C9: the same attribute [x] chosen for both axes, with an integer count
    whose clamped value does not exceed the number of rows.  Provided the
    core returns one label per sample and centres of the documented shape,
    the run is not rejected: the fit is requested on the samples [[v; v]],
    [v] ranging over the column [x], and the callback returns a chart of [x]
    against [x] and one record per row of the table. *)
Theorem same_attribute_accepted (lloyd : core) bundle x n clicks w :
  labels_per_sample lloyd → centers_shape lloyd →
  frames w !! iris_data = Some (base_frame bundle) →
  x ∈ iris_cols →
  Z.max n 1 ≤ Z.of_nat (length bundle) →
  ∃ fig recs w' colx,
    run_clustering lloyd x x (PyInt n) clicks w = (Ok (fig, recs), w') ∧
    (x, colx) ∈ columns (base_frame bundle) ∧
    fit_log w' = fit_log w ++ [(PyInt (Z.max n 1), map (λ v, [v; v]) colx)] ∧
    fig_x fig = x ∧ fig_y fig = x ∧
    to_dict_records (data_frame fig) = recs ∧
    length recs = length bundle.
Proof.
  intros Hlab Hshape Hbase Hx Hn.
  destruct (attribute_column bundle x Hx) as (qx & Hqx & Hcx).
  destruct (run_on_attributes lloyd bundle x x n clicks w qx qx)
    as (labels & centers & rs & frame & cdf & cx & cy & df
        & Hfit & Hset & Hcdf & Hgx & Hgy & Hrun); try done.
  destruct (records_with_cluster _ _ _ Hset) as [Hlen Hrecs].
  eexists _, _, _, (CFloat <$> qx). split; [exact Hrun|]. cbn.
  split; [done|]. split.
  { unfold pairs. by rewrite zip_with_diag. }
  repeat split. rewrite Hrecs, length_zip_with. lia.
Qed.

Lemma same_attribute_accepted_witness :
  ∃ fig recs w' colx,
    run_clustering round_robin "Petal length (cm)" "Petal length (cm)"
      (PyInt 4) PyNone sample_world = (Ok (fig, recs), w') ∧
    ("Petal length (cm)", colx) ∈ columns (base_frame sample_bundle) ∧
    fit_log w' = fit_log sample_world ++
                 [(PyInt (Z.max 4 1), map (λ v, [v; v]) colx)] ∧
    fig_x fig = "Petal length (cm)" ∧ fig_y fig = "Petal length (cm)" ∧
    to_dict_records (data_frame fig) = recs ∧
    length recs = length sample_bundle.
Proof.
  apply (same_attribute_accepted round_robin sample_bundle
           "Petal length (cm)" 4 PyNone sample_world).
  - apply round_robin_labels_per_sample.
  - apply round_robin_centers_shape.
  - reflexivity.
  - apply list_elem_of_In. vm_compute. tauto.
  - vm_compute. discriminate.
Defined.

(** ** How many labels

    How many distinct labels a fit produces is decided inside scikit-learn.
    What the callback adds is the conversion to text, which keeps distinct
    labels distinct ([py_str_inj]), and what the documented interface adds
    is the range: every label shown is the text of a number below the
    effective cluster count. *)
Lemma cluster_labels_bounded (lloyd : core) bundle x y num clicks w fig recs w' :
  labels_in_range lloyd →
  frames w !! iris_data = Some (base_frame bundle) →
  run_clustering lloyd x y num clicks w = (Ok (fig, recs), w') →
  ∃ k, py_max num (PyInt 1) = Ok (PyInt k) ∧
       Forall (λ r, ∃ z, 0 ≤ z < k ∧ r !! "Cluster" = Some (CStr (py_str z)))
              recs.
Proof.
  intros Hrange Hbase Hrun%run_clustering_returns.
  destruct Hrun as [k base feats Xf labels centers rs frame cdf cx cy df
                      Hmax Hb _ _ _ Hk Hfit Hset _ _ _].
  rewrite Hbase in Hb. injection Hb as <-.
  exists k. split; [done|].
  pose proof (Hrange (random_state w) k Xf Hk) as Hl.
  rewrite Hfit in Hl. simpl in Hl.
  destruct (records_with_cluster _ _ _ Hset) as [_ ->].
  apply Forall_forall. intros r Hr.
  apply list_elem_of_lookup in Hr as [i Hi].
  rewrite lookup_zip_with in Hi.
  destruct (bundle !! i) as [f|]; [|done].
  destruct (labels !! i) as [z|] eqn:Hz; [|done].
  cbn in Hi. injection Hi as <-. exists z.
  rewrite lookup_insert_eq. split; [|done].
  apply list_elem_of_lookup_2 in Hz.
  by apply (proj1 (Forall_forall _ _) Hl) in Hz.
Qed.

(** ** Runs that raise, on the sample table *)

Example fractional_count_clamp :
  py_max (PyFloat (tenths 25)) (PyInt 1) = Ok (PyFloat (tenths 25)) ∧
  py_max (PyFloat (tenths 5)) (PyInt 1) = Ok (PyInt 1).
Proof. split; vm_compute; reflexivity. Qed.

Example fractional_count_rejected :
  (run_clustering round_robin "Sepal length (cm)" "Sepal width (cm)"
     (PyFloat (tenths 25)) PyNone sample_world).1
  = Err InvalidParameterError.
Proof. vm_compute. reflexivity. Qed.

Example too_many_clusters :
  (run_clustering round_robin "Sepal length (cm)" "Sepal width (cm)"
     (PyInt 151) PyNone sample_world).1
  = Err ValueError.
Proof. vm_compute. reflexivity. Qed.

Example unknown_column :
  (run_clustering round_robin "Sepal length (cm)" "sepal_width"
     (PyInt 3) PyNone sample_world).1
  = Err KeyError.
Proof. vm_compute. reflexivity. Qed.

Example text_column :
  (run_clustering round_robin "Sepal length (cm)" "Species"
     (PyInt 3) PyNone sample_world).1
  = Err ValueError.
Proof. vm_compute. reflexivity. Qed.

(** ** Requests that are refused *)

Lemma getitem_list_Err df names e : getitem_list df names = Err e → e = KeyError.
Proof.
  induction names as [|n names IH]; [done|].
  change (getitem_list df (n :: names))
    with (match labelled n df with
          | [] => Err KeyError
          | c :: cs =>
              match getitem_list df names with
              | Ok more => Ok ((c :: cs) ++ more)
              | Err e => Err e
              end
          end).
  destruct (labelled n df); [congruence|].
  destruct (getitem_list df names); [done|]. exact IH.
Qed.

Lemma getitem_list_pair_inv df x y feats :
  getitem_list df [x; y] = Ok feats →
  x ∈ (columns df).*1 ∧ y ∈ (columns df).*1.
Proof.
  unfold getitem_list. destruct (labelled x df) as [|cx lx] eqn:Ex; [done|].
  destruct (labelled y df) as [|cy ly] eqn:Ey; [done|]. intros _.
  split; apply list_elem_of_fmap.
  - exists cx. assert (cx ∈ labelled x df) as Hin by (rewrite Ex; left).
    apply list_elem_of_filter in Hin as [-> ?]. done.
  - exists cy. assert (cy ∈ labelled y df) as Hin by (rewrite Ey; left).
    apply list_elem_of_filter in Hin as [-> ?]. done.
Qed.

(** A run whose fit is refused by the validation: the copy has been made and
    the request logged, the core has not run. *)
Lemma run_clustering_fit_refused lloyd x y num clicks w n df feats e :
  py_max num (PyInt 1) = Ok n →
  frames w !! iris_data = Some df →
  getitem_list df [x; y] = Ok feats →
  validate_fit (KMeans_new n) (values (mkDataFrame (df_len df) feats)) = Err e →
  ∃ l, frames w !! l = None ∧
       run_clustering lloyd x y num clicks w
       = (Err e,
          mkWorld (<[l := df]> (frames w)) (random_state w)
            (fit_log w ++ [(n, values (mkDataFrame (df_len df) feats))])).
Proof.
  intros Hmax Hdf Hfeats Hval.
  cut (wp (run_clustering lloyd x y num clicks) (λ _ _, False)
         (λ e' w', ∃ l, frames w !! l = None ∧ e' = e ∧
            w' = mkWorld (<[l := df]> (frames w)) (random_state w)
                   (fit_log w ++ [(n, values (mkDataFrame (df_len df) feats))]))
         w).
  { unfold wp. destruct (run_clustering _ _ _ _ _ w) as [[r|e'] w']; [done|].
    intros (l & ? & -> & ->). eauto. }
  unfold run_clustering. wp_run; simplify_map_eq; same_outcome; eauto.
Qed.

(** X1 (missing column): when an axis names no column of the frame bound to
    [iris_data], a run with a numeric count raises [KeyError]; no fit has
    been requested and the generator has not been touched. *)
Theorem missing_column_raises (lloyd : core) x y num n clicks w df :
  py_max num (PyInt 1) = Ok n →
  frames w !! iris_data = Some df →
  x ∉ (columns df).*1 ∨ y ∉ (columns df).*1 →
  (run_clustering lloyd x y num clicks w).1 = Err KeyError ∧
  fit_log (run_clustering lloyd x y num clicks w).2 = fit_log w ∧
  random_state (run_clustering lloyd x y num clicks w).2 = random_state w.
Proof.
  intros Hmax Hdf Hmiss.
  assert (∀ feats, getitem_list df [x; y] ≠ Ok feats) as Hno.
  { intros feats [??]%getitem_list_pair_inv. tauto. }
  cut (wp (run_clustering lloyd x y num clicks) (λ _ _, False)
         (λ e w', e = KeyError ∧ fit_log w' = fit_log w ∧
                  random_state w' = random_state w) w).
  { unfold wp. destruct (run_clustering _ _ _ _ _ w) as [[r|e'] w']; [done|].
    by intros (-> & ? & ?). }
  unfold run_clustering. wp_run; simplify_map_eq; same_outcome;
    try (exfalso; eapply Hno; eassumption).
  split; [|done]. by eapply getitem_list_Err.
Qed.

Lemma missing_column_raises_witness :
  (run_clustering round_robin "sepal_length" "Sepal width (cm)" (PyInt 3)
     PyNone sample_world).1 = Err KeyError ∧
  fit_log (run_clustering round_robin "sepal_length" "Sepal width (cm)"
             (PyInt 3) PyNone sample_world).2 = fit_log sample_world ∧
  random_state (run_clustering round_robin "sepal_length" "Sepal width (cm)"
                  (PyInt 3) PyNone sample_world).2
  = random_state sample_world.
Proof.
  apply (missing_column_raises round_robin "sepal_length" "Sepal width (cm)"
           (PyInt 3) (PyInt 3) PyNone sample_world (base_frame sample_bundle)).
  - vm_compute. reflexivity.
  - reflexivity.
  - left. rewrite base_frame_labels. intros H%list_elem_of_In.
    vm_compute in H. intuition discriminate.
Defined.

Lemma py_max_fraction q :
  py_max (PyFloat q) (PyInt 1)
  = Ok (if decide (q < 1)%Qc then PyInt 1 else PyFloat q).
Proof.
  unfold py_max, py_gt; simpl. rewrite Z2Qc_inj_1.
  case_bool_decide; by case_decide.
Qed.

(** X2 (fraction below one): a fractional count below 1 is replaced by the
    integer 1 at the clamp, so the run is the run for a count of 1. *)
Theorem fraction_below_one_clamped (lloyd : core) x y q clicks w :
  (q < 1)%Qc →
  py_max (PyFloat q) (PyInt 1) = Ok (PyInt 1) ∧
  run_clustering lloyd x y (PyFloat q) clicks w
  = run_clustering lloyd x y (PyInt 1) clicks w.
Proof.
  intros Hq.
  assert (py_max (PyFloat q) (PyInt 1) = Ok (PyInt 1)) as Hmax
    by (by rewrite py_max_fraction, decide_True).
  split; [done|]. unfold run_clustering. rewrite Hmax.
  by rewrite (py_max_int 1).
Qed.

Lemma fraction_below_one_clamped_witness :
  py_max (PyFloat (tenths 5)) (PyInt 1) = Ok (PyInt 1) ∧
  run_clustering round_robin "Sepal length (cm)" "Sepal width (cm)"
    (PyFloat (tenths 5)) PyNone sample_world
  = run_clustering round_robin "Sepal length (cm)" "Sepal width (cm)"
      (PyInt 1) PyNone sample_world.
Proof.
  apply (fraction_below_one_clamped round_robin _ _ (tenths 5)).
  vm_compute. reflexivity.
Defined.

(** X3 (fraction from one up): a fractional count that is at least 1 passes
    the clamp as it is and the run never returns; when both axes name
    columns, it is the fit that refuses it, with [InvalidParameterError],
    before the core is run. *)
Theorem fraction_refused (lloyd : core) x y q clicks w :
  (1 ≤ q)%Qc →
  py_max (PyFloat q) (PyInt 1) = Ok (PyFloat q) ∧
  is_ok (run_clustering lloyd x y (PyFloat q) clicks w).1 = false ∧
  (∀ df, frames w !! iris_data = Some df →
         x ∈ (columns df).*1 → y ∈ (columns df).*1 →
         (run_clustering lloyd x y (PyFloat q) clicks w).1
         = Err InvalidParameterError ∧
         random_state (run_clustering lloyd x y (PyFloat q) clicks w).2
         = random_state w).
Proof.
  intros Hq.
  assert (py_max (PyFloat q) (PyInt 1) = Ok (PyFloat q)) as Hmax.
  { rewrite py_max_fraction, decide_False; [done|]. by apply Qcle_not_lt. }
  split; [done|]. split.
  - destruct (run_clustering lloyd x y (PyFloat q) clicks w)
      as [[[fig recs]|e] w'] eqn:Hrun; [|done].
    apply run_clustering_returns in Hrun. destruct Hrun. congruence.
  - intros df Hdf Hx Hy.
    destruct (run_clustering_fit_refused lloyd x y (PyFloat q) clicks w
                (PyFloat q) df _ InvalidParameterError Hmax Hdf
                (getitem_list_pair_Ok df x y Hx Hy)) as (l & _ & ->); done.
Qed.

Lemma fraction_refused_witness :
  py_max (PyFloat (tenths 25)) (PyInt 1) = Ok (PyFloat (tenths 25)) ∧
  is_ok (run_clustering round_robin "Sepal length (cm)" "Sepal width (cm)"
           (PyFloat (tenths 25)) PyNone sample_world).1 = false ∧
  (∀ df, frames sample_world !! iris_data = Some df →
         "Sepal length (cm)" ∈ (columns df).*1 →
         "Sepal width (cm)" ∈ (columns df).*1 →
         (run_clustering round_robin "Sepal length (cm)" "Sepal width (cm)"
            (PyFloat (tenths 25)) PyNone sample_world).1
         = Err InvalidParameterError ∧
         random_state
           (run_clustering round_robin "Sepal length (cm)" "Sepal width (cm)"
              (PyFloat (tenths 25)) PyNone sample_world).2
         = random_state sample_world).
Proof.
  apply (fraction_refused round_robin _ _ (tenths 25)).
  vm_compute. discriminate.
Defined.

(** ** Columns of the start-up frame as samples *)

Lemma base_frame_ok bundle : frame_ok (base_frame bundle).
Proof.
  rewrite base_frame_eq. unfold frame_ok. cbn [columns df_len].
  repeat constructor; apply length_map.
Qed.

Lemma base_column_length bundle x c :
  (x, c) ∈ columns (base_frame bundle) → length c = length bundle.
Proof.
  intros H. by apply (proj1 (Forall_forall _ _) (base_frame_ok bundle)) in H.
Qed.

(** The samples made of two columns of the start-up frame. *)
Lemma base_frame_samples bundle x y cx cy :
  (x, cx) ∈ columns (base_frame bundle) →
  (y, cy) ∈ columns (base_frame bundle) →
  getitem_list (base_frame bundle) [x; y] = Ok [(x, cx); (y, cy)] ∧
  values (mkDataFrame (df_len (base_frame bundle)) [(x, cx); (y, cy)])
  = pairs cx cy.
Proof.
  intros Hx Hy. pose proof (base_frame_NoDup bundle) as Hnd. split.
  - rewrite getitem_list_pair_Ok by (by eapply column_label).
    by rewrite (labelled_unique _ _ _ Hnd Hx), (labelled_unique _ _ _ Hnd Hy).
  - apply values_pair; by eapply base_column_length.
Qed.

(** X4 (more clusters than rows): with two attribute columns of the
    start-up frame and an integer count above the number of rows, the fit
    is refused with [ValueError]; the request reached scikit-learn with the
    count as given, and the core has not run. *)
Theorem too_many_clusters_refused (lloyd : core) bundle x y n clicks w :
  frames w !! iris_data = Some (base_frame bundle) →
  x ∈ iris_cols → y ∈ iris_cols →
  Z.of_nat (length bundle) < n →
  ∃ X, (run_clustering lloyd x y (PyInt n) clicks w).1 = Err ValueError ∧
       fit_log (run_clustering lloyd x y (PyInt n) clicks w).2
       = fit_log w ++ [(PyInt n, X)] ∧
       length X = length bundle ∧
       random_state (run_clustering lloyd x y (PyInt n) clicks w).2
       = random_state w.
Proof.
  intros Hbase Hx Hy Hn.
  destruct (attribute_column bundle x Hx) as (qx & Hqx & Hcx).
  destruct (attribute_column bundle y Hy) as (qy & Hqy & Hcy).
  destruct (base_frame_samples bundle x y _ _ Hcx Hcy) as [Hfeats Hvals].
  assert (py_max (PyInt n) (PyInt 1) = Ok (PyInt n)) as Hmax.
  { rewrite py_max_int. do 2 f_equal. lia. }
  destruct (run_clustering_fit_refused lloyd x y (PyInt n) clicks w
              (PyInt n) _ _ ValueError Hmax Hbase Hfeats) as (l & _ & ->).
  { rewrite Hvals. unfold validate_fit. cbn [n_clusters KMeans_new].
    rewrite check_array_floats, decide_True by lia.
    rewrite decide_False; [done|]. rewrite length_pairs by congruence. lia. }
  eexists. cbn. rewrite Hvals. repeat split.
  rewrite length_pairs; rewrite !length_fmap; congruence.
Qed.

Lemma too_many_clusters_refused_witness :
  ∃ X, (run_clustering round_robin "Sepal length (cm)" "Sepal width (cm)"
          (PyInt 151) PyNone sample_world).1 = Err ValueError ∧
       fit_log (run_clustering round_robin "Sepal length (cm)"
                  "Sepal width (cm)" (PyInt 151) PyNone sample_world).2
       = fit_log sample_world ++ [(PyInt 151, X)] ∧
       length X = length sample_bundle ∧
       random_state (run_clustering round_robin "Sepal length (cm)"
                       "Sepal width (cm)" (PyInt 151) PyNone sample_world).2
       = random_state sample_world.
Proof.
  apply (too_many_clusters_refused round_robin sample_bundle
           "Sepal length (cm)" "Sepal width (cm)" 151 PyNone sample_world).
  - reflexivity.
  - apply list_elem_of_In. vm_compute. tauto.
  - apply list_elem_of_In. vm_compute. tauto.
  - vm_compute. reflexivity.
Defined.

Lemma check_array_text (cx cy : list Cell) s :
  length cx = length cy →
  (∃ l, cx = CStr s :: l) ∨ (∃ l, cy = CStr s :: l) →
  check_array (pairs cx cy) = Err ValueError.
Proof.
  intros Hlen [[l ->]|[l ->]]; unfold check_array.
  - destruct cy as [|c cy]; [done|]. reflexivity.
  - destruct cx as [|c cx]; [done|]. cbn. by destruct c.
Qed.

(** X5 (a text column as an axis): the callback itself does not keep
    "Species" off the axes.  On a non-empty table whose species are named
    setosa, versicolor or virginica, a run with an integer count and
    "Species" as either axis (the other axis any column) is refused by the
    fit with [ValueError], before the core is run. *)
Theorem text_column_refused (lloyd : core) bundle x y n clicks w :
  frames w !! iris_data = Some (base_frame bundle) →
  bundle ≠ [] →
  Forall (λ f, species f ∈ ["setosa"; "versicolor"; "virginica"]) bundle →
  x ∈ (columns (base_frame bundle)).*1 →
  y ∈ (columns (base_frame bundle)).*1 →
  x = "Species" ∨ y = "Species" →
  (run_clustering lloyd x y (PyInt n) clicks w).1 = Err ValueError ∧
  random_state (run_clustering lloyd x y (PyInt n) clicks w).2
  = random_state w.
Proof.
  intros Hbase Hne _ Hx Hy Hsp.
  apply list_elem_of_fmap in Hx as ([x' cx] & -> & Hcx).
  apply list_elem_of_fmap in Hy as ([y' cy] & -> & Hcy). cbn [fst] in *.
  destruct (base_frame_samples bundle _ _ _ _ Hcx Hcy) as [Hfeats Hvals].
  assert (("Species", CStr <$> (species <$> bundle))
          ∈ columns (base_frame bundle)) as Hspecies.
  { rewrite base_frame_eq. cbn [columns]. rewrite <-list_fmap_compose.
    do 4 right. left. }
  assert (check_array (pairs cx cy) = Err ValueError) as Hcheck.
  { destruct bundle as [|f bundle]; [done|].
    apply (check_array_text _ _ (species f)).
    - rewrite (base_column_length _ _ _ Hcx). symmetry.
      by eapply base_column_length.
    - change (CStr <$> (species <$> f :: bundle))
        with (CStr (species f) :: (CStr <$> (species <$> bundle)))
        in Hspecies.
      destruct Hsp as [->| ->]; [left|right]; eexists;
        (eapply (column_unique _ _ _ _ (base_frame_NoDup _));
         [eassumption|exact Hspecies]). }
  destruct (run_clustering_fit_refused lloyd x' y' (PyInt n) clicks w
              (PyInt (Z.max n 1)) _ _ ValueError (py_max_int n) Hbase Hfeats)
    as (l & _ & ->); [|done].
  rewrite Hvals. unfold validate_fit. cbn [n_clusters KMeans_new].
  by rewrite decide_True, Hcheck by lia.
Qed.

Lemma text_column_refused_witness :
  (run_clustering round_robin "Sepal length (cm)" "Species" (PyInt 3)
     PyNone sample_world).1 = Err ValueError ∧
  random_state (run_clustering round_robin "Sepal length (cm)" "Species"
                  (PyInt 3) PyNone sample_world).2
  = random_state sample_world.
Proof.
  apply (text_column_refused round_robin sample_bundle
           "Sepal length (cm)" "Species" 3 PyNone sample_world).
  - reflexivity.
  - discriminate.
  - apply (bool_decide_unpack _). by vm_compute.
  - apply list_elem_of_In. vm_compute. tauto.
  - apply list_elem_of_In. vm_compute. tauto.
  - by right.
Defined.

(** ** Chart and table of one run *)

(** X6 (chart and table agree): in a run that returns, the chart is drawn
    from the very frame whose records are returned, with the chosen axes and
    coloured by "Cluster"; and, the core keeping its labels below the
    cluster count, every label in the table is listed in the category order
    of the chart. *)
Theorem chart_matches_table (lloyd : core) bundle x y num clicks w fig recs w' :
  labels_in_range lloyd →
  frames w !! iris_data = Some (base_frame bundle) →
  run_clustering lloyd x y num clicks w = (Ok (fig, recs), w') →
  to_dict_records (data_frame fig) = recs ∧
  fig_x fig = x ∧ fig_y fig = y ∧ fig_color fig = "Cluster" ∧
  ∃ ids, category_orders fig !! "Cluster" = Some ids ∧
         Forall (λ r, ∃ s, s ∈ ids ∧ r !! "Cluster" = Some (CStr s)) recs.
Proof.
  intros Hrange Hbase Hrun.
  destruct (cluster_labels_bounded _ _ _ _ _ _ _ _ _ _ Hrange Hbase Hrun)
    as (k & Hk & Hlabels).
  apply run_clustering_returns in Hrun.
  destruct Hrun as [k' base feats Xf labels centers rs frame cdf cx cy df
                      Hmax _ _ _ _ _ _ _ _ _ _].
  rewrite Hk in Hmax. injection Hmax as <-.
  repeat split. eexists. split; [apply lookup_singleton_eq|].
  eapply Forall_impl; [exact Hlabels|]. intros r (z & Hz & Hr).
  exists (py_str z). split; [|done].
  apply list_elem_of_fmap. exists z. split; [done|].
  apply elem_of_seqZ. lia.
Qed.

Lemma chart_matches_table_witness :
  to_dict_records
    (data_frame (sample_run "Sepal length (cm)" "Sepal width (cm)" 3).1)
  = (sample_run "Sepal length (cm)" "Sepal width (cm)" 3).2 ∧
  fig_x (sample_run "Sepal length (cm)" "Sepal width (cm)" 3).1
  = "Sepal length (cm)" ∧
  fig_y (sample_run "Sepal length (cm)" "Sepal width (cm)" 3).1
  = "Sepal width (cm)" ∧
  fig_color (sample_run "Sepal length (cm)" "Sepal width (cm)" 3).1
  = "Cluster" ∧
  ∃ ids,
    category_orders (sample_run "Sepal length (cm)" "Sepal width (cm)" 3).1
      !! "Cluster" = Some ids ∧
    Forall (λ r, ∃ s, s ∈ ids ∧ r !! "Cluster" = Some (CStr s))
           (sample_run "Sepal length (cm)" "Sepal width (cm)" 3).2.
Proof.
  apply (chart_matches_table round_robin sample_bundle
           "Sepal length (cm)" "Sepal width (cm)" (PyInt 3) PyNone sample_world
           _ _
           (run_clustering round_robin "Sepal length (cm)" "Sepal width (cm)"
              (PyInt 3) PyNone sample_world).2).
  - apply round_robin_labels_in_range.
  - reflexivity.
  - apply returned_eq. vm_compute. reflexivity.
Defined.

(** ** Requests do not see each other *)

Lemma returns_with_agree lloyd x y num w1 w2 fig1 recs1 w1' fig2 recs2 w2' :
  frames w1 !! iris_data = frames w2 !! iris_data →
  random_state w1 = random_state w2 →
  returns_with lloyd x y num w1 fig1 recs1 w1' →
  returns_with lloyd x y num w2 fig2 recs2 w2' →
  fig1 = fig2 ∧ recs1 = recs2.
Proof.
  intros Hf Hr H1 H2. destruct H1, H2.
  rewrite <-Hf in *. rewrite <-Hr in *. same_outcome. done.
Qed.

Lemma run_clustering_transfer lloyd x y num clicks w1 w2 fig recs w1' :
  frames w1 !! iris_data = frames w2 !! iris_data →
  random_state w1 = random_state w2 →
  run_clustering lloyd x y num clicks w1 = (Ok (fig, recs), w1') →
  ∃ w2', run_clustering lloyd x y num clicks w2 = (Ok (fig, recs), w2').
Proof.
  intros Hf Hr Hrun.
  pose proof (run_clustering_returns _ _ _ _ _ _ _ _ _ Hrun) as H1.
  destruct (H1) as [k base feats Xf labels centers rs frame cdf cx cy df
                      Hmax Hb _ Hfeats HX Hk Hfit Hset Hcdf Hcx Hcy].
  rewrite Hf in Hb. rewrite Hr in Hfit.
  destruct (run_clustering_complete lloyd x y num clicks w2
              k base feats Xf labels centers rs frame cdf cx cy)
    as (fig2 & recs2 & w2' & Hrun2); try done.
  pose proof (run_clustering_returns _ _ _ _ _ _ _ _ _ Hrun2) as H2.
  destruct (returns_with_agree _ _ _ _ _ _ _ _ _ _ _ _ Hf Hr H1 H2)
    as [<- <-].
  by exists w2'.
Qed.

(** X7 (no state between requests): whatever requests were served before,
    a run returns the chart and the records it would return in a process
    just started with the same generator state. *)
Theorem request_independent (lloyd : core) bundle rs reqs x y num clicks
    fig recs w' :
  run_clustering lloyd x y num clicks (serve lloyd reqs (startup bundle rs))
  = (Ok (fig, recs), w') →
  ∃ w'', run_clustering lloyd x y num clicks
           (startup bundle
              (random_state (serve lloyd reqs (startup bundle rs))))
         = (Ok (fig, recs), w'').
Proof.
  apply run_clustering_transfer; [|done].
  rewrite serve_iris_data. symmetry. apply lookup_singleton_eq.
Qed.

Lemma request_independent_witness :
  ∃ w'', run_clustering round_robin "Sepal width (cm)" "Petal width (cm)"
           (PyInt 2) (PyInt 2)
           (startup short_bundle (random_state served_world))
         = (Ok ((returned (no_figure, [])
                   (run_clustering round_robin "Sepal width (cm)"
                      "Petal width (cm)" (PyInt 2) (PyInt 2) served_world)).1,
                (returned (no_figure, [])
                   (run_clustering round_robin "Sepal width (cm)"
                      "Petal width (cm)" (PyInt 2) (PyInt 2) served_world)).2),
            w'').
Proof.
  apply (request_independent round_robin short_bundle 7
           [ mkRequest "Sepal length (cm)" "Species" (PyInt 2) PyNone;
             mkRequest "Petal length (cm)" "Petal width (cm)" (PyInt 3)
               (PyInt 1) ]
           "Sepal width (cm)" "Petal width (cm)" (PyInt 2) (PyInt 2) _ _
           (run_clustering round_robin "Sepal width (cm)" "Petal width (cm)"
              (PyInt 2) (PyInt 2) served_world).2).
  apply (returned_eq (no_figure, [])
           (run_clustering round_robin "Sepal width (cm)" "Petal width (cm)"
              (PyInt 2) (PyInt 2) served_world)).
  vm_compute. reflexivity.
Defined.

(** ** What reaches k-means *)

(** X8 (the fit as requested): with integer count [n ≥ 1] and two columns
    of floats of the start-up frame as axes, the fit is requested with the
    count [n] unchanged and with one sample per row of the table, the x
    entry first and the y entry second, in table order; this holds whether
    or not the run then returns. *)
Theorem fit_request (lloyd : core) bundle x y (qx qy : list Qc) n clicks w :
  1 ≤ n →
  frames w !! iris_data = Some (base_frame bundle) →
  (x, CFloat <$> qx) ∈ columns (base_frame bundle) →
  (y, CFloat <$> qy) ∈ columns (base_frame bundle) →
  fit_log (run_clustering lloyd x y (PyInt n) clicks w).2
  = fit_log w ++ [(PyInt n, pairs (CFloat <$> qx) (CFloat <$> qy))] ∧
  length (pairs (CFloat <$> qx) (CFloat <$> qy)) = length bundle ∧
  ∀ i a b, qx !! i = Some a → qy !! i = Some b →
           pairs (CFloat <$> qx) (CFloat <$> qy) !! i
           = Some [CFloat a; CFloat b].
Proof.
  intros Hn Hbase Hx Hy.
  destruct (base_frame_samples bundle x y _ _ Hx Hy) as [Hfeats Hvals].
  pose proof (base_frame_NoDup bundle) as Hnd.
  assert (py_max (PyInt n) (PyInt 1) = Ok (PyInt n)) as Hmax.
  { rewrite py_max_int. do 2 f_equal. lia. }
  split; [|split].
  - rewrite (run_clustering_fit_log lloyd x y (PyInt n) (PyInt n) clicks w
               (base_frame bundle) Hmax Hbase)
      by (by eapply column_label).
    rewrite (labelled_unique _ _ _ Hnd Hx), (labelled_unique _ _ _ Hnd Hy).
    cbn [app]. by rewrite Hvals.
  - rewrite length_pairs; [by eapply base_column_length|].
    rewrite (base_column_length _ _ _ Hx). symmetry.
    by eapply base_column_length.
  - intros i a b Ha Hb. unfold pairs.
    by rewrite lookup_zip_with, !list_lookup_fmap, Ha, Hb.
Qed.

Lemma fit_request_witness :
  fit_log (run_clustering round_robin "Petal length (cm)" "Sepal width (cm)"
             (PyInt 4) PyNone sample_world).2
  = fit_log sample_world ++
    [(PyInt 4,
      pairs (CFloat <$> (petal_length <$> sample_bundle))
            (CFloat <$> (sepal_width <$> sample_bundle)))] ∧
  length (pairs (CFloat <$> (petal_length <$> sample_bundle))
                (CFloat <$> (sepal_width <$> sample_bundle)))
  = length sample_bundle ∧
  ∀ i a b,
    (petal_length <$> sample_bundle) !! i = Some a →
    (sepal_width <$> sample_bundle) !! i = Some b →
    pairs (CFloat <$> (petal_length <$> sample_bundle))
          (CFloat <$> (sepal_width <$> sample_bundle)) !! i
    = Some [CFloat a; CFloat b].
Proof.
  apply (fit_request round_robin sample_bundle
           "Petal length (cm)" "Sepal width (cm)" _ _ 4 PyNone sample_world).
  - lia.
  - reflexivity.
  - rewrite base_frame_eq, <-list_fmap_compose. cbn [columns].
    do 2 right. left.
  - rewrite base_frame_eq, <-list_fmap_compose. cbn [columns].
    right. left.
Defined.

(** ** Where the centroids are drawn *)

Lemma rows_as_points (arr : list (list Qc)) :
  Forall (λ r, length r = 2%nat) arr →
  ∃ pts : list (Qc * Qc), arr = map (λ p, [p.1; p.2]) pts.
Proof.
  induction 1 as [|r arr Hr _ [pts ->]]; [by exists []|].
  destruct r as [|a [|b [|? ?]]]; try done. by exists ((a, b) :: pts).
Qed.

Lemma pd_DataFrame_points (pts : list (Qc * Qc)) x y :
  pd_DataFrame (map (λ p, [p.1; p.2]) pts) [x; y]
  = Ok (mkDataFrame (length pts)
          [(x, map (λ p, CFloat p.1) pts); (y, map (λ p, CFloat p.2) pts)]).
Proof.
  unfold pd_DataFrame. rewrite decide_True.
  - rewrite length_map. do 2 f_equal. cbn [imap compose].
    assert (∀ j (g : Qc * Qc → Qc),
              (∀ p, [p.1; p.2] !! j = Some (g p)) →
              omap (λ r : list Qc, CFloat <$> r !! j)
                   (map (λ p, [p.1; p.2]) pts)
              = map (λ p, CFloat (g p)) pts) as Hcol.
    { intros j g Hg. induction pts as [|p pts IH]; [done|].
      cbn. rewrite Hg. cbn. f_equal. exact IH. }
    by rewrite (Hcol 0%nat fst), (Hcol 1%nat snd).
  - apply Forall_fmap. by apply Forall_true.
Qed.

(** X9 (centroid coordinates): in a run that returns with two different
    axes, the centres the core returned are pairs, and the "Centroids" trace
    plots them in order, as markers: its x data are the first entries of
    the centres, under the x label, and its y data the second entries,
    under the y label. *)
Theorem centroid_coordinates (lloyd : core) x y num clicks w fig recs w' :
  x ≠ y →
  run_clustering lloyd x y num clicks w = (Ok (fig, recs), w') →
  ∃ k X Xf labels rs (pts : list (Qc * Qc)),
    fit_log w' = fit_log w ++ [(PyInt k, X)] ∧
    check_array X = Ok Xf ∧
    lloyd (random_state w) k Xf = (labels, map (λ p, [p.1; p.2]) pts, rs) ∧
    added_traces fig
    = [mkGoScatter (Series x (map (λ p, CFloat p.1) pts))
         (Series y (map (λ p, CFloat p.2) pts))
         "markers" (mkMarker "black" 16 "star-triangle-up") "Centroids"].
Proof.
  intros Hxy Hrun%run_clustering_returns.
  destruct Hrun as [k base feats Xf labels centers rs frame cdf cx cy df
                      _ _ _ _ HX _ Hfit _ Hcdf Hcx Hcy].
  assert (Forall (λ r, length r = 2%nat) centers) as Hrows.
  { unfold pd_DataFrame in Hcdf. by case_decide. }
  destruct (rows_as_points centers Hrows) as [pts ->].
  rewrite pd_DataFrame_points in Hcdf. injection Hcdf as <-.
  unfold getitem, labelled in Hcx, Hcy. cbn in Hcx, Hcy.
  repeat case_decide; simplify_eq.
  by eexists k, _, Xf, labels, rs, pts.
Qed.

Lemma centroid_coordinates_witness :
  ∃ k X Xf labels rs (pts : list (Qc * Qc)),
    fit_log (run_clustering round_robin "Petal length (cm)"
               "Petal width (cm)" (PyInt 2) PyNone sample_world).2
    = fit_log sample_world ++ [(PyInt k, X)] ∧
    check_array X = Ok Xf ∧
    round_robin (random_state sample_world) k Xf
    = (labels, map (λ p, [p.1; p.2]) pts, rs) ∧
    added_traces (sample_run "Petal length (cm)" "Petal width (cm)" 2).1
    = [mkGoScatter (Series "Petal length (cm)" (map (λ p, CFloat p.1) pts))
         (Series "Petal width (cm)" (map (λ p, CFloat p.2) pts))
         "markers" (mkMarker "black" 16 "star-triangle-up") "Centroids"].
Proof.
  apply (centroid_coordinates round_robin
           "Petal length (cm)" "Petal width (cm)" (PyInt 2) PyNone
           sample_world _
           (sample_run "Petal length (cm)" "Petal width (cm)" 2).2
           (run_clustering round_robin "Petal length (cm)" "Petal width (cm)"
              (PyInt 2) PyNone sample_world).2).
  - discriminate.
  - apply returned_eq. vm_compute. reflexivity.
Defined.

(** ** The page and the callback *)

Lemma centroid_positions centers x y cdf s name :
  pd_DataFrame centers [x; y] = Ok cdf →
  getitem cdf name = Ok s → sel_len s = length centers.
Proof.
  intros (Hn & _ & Hok)%pd_DataFrame_inv Hs.
  by rewrite (getitem_len _ _ _ Hok Hs).
Qed.

(** X10 (every offered selection is accepted): whatever the user picks in
    the two dropdowns of the page, with an integer count whose clamped value
    does not exceed the number of rows, the callback returns a chart and one
    record per row (the core returning one label per sample and centres of
    the documented shape). *)
Theorem dropdown_selection_accepted (lloyd : core) bundle vx vy n clicks w :
  labels_per_sample lloyd → centers_shape lloyd →
  frames w !! iris_data = Some (base_frame bundle) →
  vx ∈ dropdown_values layout "x-dropdown" →
  vy ∈ dropdown_values layout "y-dropdown" →
  Z.max n 1 ≤ Z.of_nat (length bundle) →
  ∃ fig recs w',
    run_clustering lloyd vx vy (PyInt n) clicks w = (Ok (fig, recs), w') ∧
    fig_x fig = vx ∧ fig_y fig = vy ∧
    length recs = length bundle.
Proof.
  intros Hlab Hshape Hbase Hx Hy Hn.
  change (dropdown_values layout "x-dropdown") with iris_cols in Hx.
  change (dropdown_values layout "y-dropdown") with iris_cols in Hy.
  destruct (attribute_column bundle vx Hx) as (qx & Hqx & Hcx).
  destruct (attribute_column bundle vy Hy) as (qy & Hqy & Hcy).
  destruct (run_on_attributes lloyd bundle vx vy n clicks w qx qy)
    as (labels & centers & rs & frame & cdf & cx & cy & df
        & Hfit & Hset & Hcdf & Hgx & Hgy & Hrun); try done.
  destruct (records_with_cluster _ _ _ Hset) as [Hlen Hrecs].
  eexists _, _, _. split; [exact Hrun|]. cbn. repeat split.
  rewrite Hrecs, length_zip_with. lia.
Qed.

Lemma dropdown_selection_accepted_witness :
  ∃ fig recs w',
    run_clustering round_robin "Petal width (cm)" "Sepal length (cm)"
      (PyInt 7) (PyInt 4) sample_world = (Ok (fig, recs), w') ∧
    fig_x fig = "Petal width (cm)" ∧ fig_y fig = "Sepal length (cm)" ∧
    length recs = length sample_bundle.
Proof.
  apply (dropdown_selection_accepted round_robin sample_bundle
           "Petal width (cm)" "Sepal length (cm)" 7 (PyInt 4) sample_world).
  - apply round_robin_labels_per_sample.
  - apply round_robin_centers_shape.
  - reflexivity.
  - apply list_elem_of_In. vm_compute. tauto.
  - apply list_elem_of_In. vm_compute. tauto.
  - vm_compute. discriminate.
Defined.

(** X11 (the page as first shown): the values the layout gives the four
    components the callback reads are "Sepal length (cm)", "Sepal width
    (cm)", 3 and no click count.  Fired with them right after start-up on a
    150-row table, the callback returns 150 records, each labelled "0", "1"
    or "2", a chart of the two sepal columns with the category order
    "0", "1", "2", and a "Centroids" trace of 3 positions (the core meeting
    its documented interface). *)
Theorem initial_render (lloyd : core) bundle rs :
  labels_per_sample lloyd → labels_in_range lloyd → centers_shape lloyd →
  length bundle = 150%nat →
  callback_args layout
  = Some ("Sepal length (cm)", "Sepal width (cm)", PyInt 3, PyNone) ∧
  ∃ fig recs w' tr,
    run_clustering lloyd "Sepal length (cm)" "Sepal width (cm)" (PyInt 3)
      PyNone (startup bundle rs) = (Ok (fig, recs), w') ∧
    length recs = 150%nat ∧
    Forall (λ r, ∃ s, s ∈ ["0"; "1"; "2"] ∧ r !! "Cluster" = Some (CStr s))
           recs ∧
    fig_x fig = "Sepal length (cm)" ∧ fig_y fig = "Sepal width (cm)" ∧
    category_orders fig !! "Cluster" = Some ["0"; "1"; "2"] ∧
    added_traces fig = [tr] ∧ trace_name tr = "Centroids" ∧
    sel_len (trace_x tr) = 3%nat ∧ sel_len (trace_y tr) = 3%nat.
Proof.
  intros Hlab Hrange Hshape Hlen. split; [reflexivity|].
  assert (frames (startup bundle rs) !! iris_data = Some (base_frame bundle))
    as Hbase by apply lookup_singleton_eq.
  destruct (attribute_column bundle "Sepal length (cm)") as (qx & Hqx & Hcx);
    [left|].
  destruct (attribute_column bundle "Sepal width (cm)") as (qy & Hqy & Hcy);
    [right; left|].
  destruct (run_on_attributes lloyd bundle _ _ 3 PyNone (startup bundle rs)
              qx qy Hlab Hshape Hbase Hcx Hcy Hqx Hqy)
    as (labels & centers & rs' & frame & cdf & cx & cy & df
        & Hfit & Hset & Hcdf & Hgx & Hgy & Hrun); [rewrite Hlen; lia|].
  change (Z.max 3 1) with 3 in *.
  assert (valid_input 3 (pairs qx qy)) as Hvalid.
  { unfold valid_input. rewrite length_pairs by congruence. lia. }
  destruct (Hshape (random_state (startup bundle rs)) 3 _ Hvalid)
    as [Hcenters _].
  rewrite Hfit in Hcenters. cbn in Hcenters.
  destruct (cluster_labels_bounded _ _ _ _ _ _ _ _ _ _ Hrange Hbase Hrun)
    as (k & Hk & Hlabels).
  rewrite py_max_int in Hk. injection Hk as <-.
  destruct (records_with_cluster _ _ _ Hset) as [Hll Hrecs].
  eexists _, _, _, _. split; [exact Hrun|]. cbn.
  split; [rewrite Hrecs, length_zip_with; lia|]. split.
  { eapply Forall_impl; [exact Hlabels|]. intros r (z & Hz & Hr).
    exists (py_str z). split; [|done].
    assert (z = 0 ∨ z = 1 ∨ z = 2) as [->|[->| ->]] by lia;
      [left|right; left|do 2 right; left]. }
  repeat split; cbn [trace_x trace_y].
  - by rewrite (centroid_positions _ _ _ _ _ _ Hcdf Hgx), Hcenters.
  - by rewrite (centroid_positions _ _ _ _ _ _ Hcdf Hgy), Hcenters.
Qed.

Lemma initial_render_witness :
  callback_args layout
  = Some ("Sepal length (cm)", "Sepal width (cm)", PyInt 3, PyNone) ∧
  ∃ fig recs w' tr,
    run_clustering round_robin "Sepal length (cm)" "Sepal width (cm)"
      (PyInt 3) PyNone (startup sample_bundle 0) = (Ok (fig, recs), w') ∧
    length recs = 150%nat ∧
    Forall (λ r, ∃ s, s ∈ ["0"; "1"; "2"] ∧ r !! "Cluster" = Some (CStr s))
           recs ∧
    fig_x fig = "Sepal length (cm)" ∧ fig_y fig = "Sepal width (cm)" ∧
    category_orders fig !! "Cluster" = Some ["0"; "1"; "2"] ∧
    added_traces fig = [tr] ∧ trace_name tr = "Centroids" ∧
    sel_len (trace_x tr) = 3%nat ∧ sel_len (trace_y tr) = 3%nat.
Proof.
  apply (initial_render round_robin sample_bundle 0).
  - apply round_robin_labels_per_sample.
  - apply round_robin_labels_in_range.
  - apply round_robin_centers_shape.
  - reflexivity.
Defined.

(** ** Renaming at start-up *)

(** X12 (columns after the renaming): every column of the bundled table is
    found in [iris_data] under its readable label, as a series with the
    data it was loaded with, and no longer under its original label. *)
Theorem renamed_columns bundle old c :
  (old, c) ∈ columns (px_data_iris bundle) →
  ∃ new, renaming !! old = Some new ∧
         getitem (base_frame bundle) new = Ok (Series new c) ∧
         getitem (base_frame bundle) old = Err KeyError ∧
         df_len (base_frame bundle) = df_len (px_data_iris bundle).
Proof.
  unfold px_data_iris. cbn [columns]. intros H.
  repeat (apply elem_of_cons in H as [[= -> ->]|H]);
    [eexists; repeat split; reflexivity..|by apply elem_of_nil in H].
Qed.

Lemma renamed_columns_witness :
  ∃ new, renaming !! "petal_width" = Some new ∧
         getitem (base_frame sample_bundle) new
         = Ok (Series new (map (λ f, CFloat (petal_width f)) sample_bundle)) ∧
         getitem (base_frame sample_bundle) "petal_width" = Err KeyError ∧
         df_len (base_frame sample_bundle)
         = df_len (px_data_iris sample_bundle).
Proof.
  apply (renamed_columns sample_bundle "petal_width").
  unfold px_data_iris. cbn [columns]. do 3 right. left.
Defined.

(** ** Labels in the table *)

(** X13 (labels as the core gave them): in a run that returns, the label
    shown on row [i] of the table is the text of the label the core gave
    sample [i] of the fit that was requested, and the generator is left in
    the state the core left it in. *)
Theorem labels_aligned (lloyd : core) bundle x y num clicks w fig recs w' :
  frames w !! iris_data = Some (base_frame bundle) →
  run_clustering lloyd x y num clicks w = (Ok (fig, recs), w') →
  ∃ k X Xf labels centers,
    fit_log w' = fit_log w ++ [(PyInt k, X)] ∧
    check_array X = Ok Xf ∧ length Xf = length bundle ∧
    lloyd (random_state w) k Xf = (labels, centers, random_state w') ∧
    recs = zip_with (λ f z, <["Cluster" := CStr (py_str z)]> (flower_record f))
                    bundle labels.
Proof.
  intros Hbase Hrun%run_clustering_returns.
  destruct Hrun as [k base feats Xf labels centers rs frame cdf cx cy df
                      _ Hb _ _ HX _ Hfit Hset _ _ _].
  rewrite Hbase in Hb. injection Hb as <-.
  destruct (records_with_cluster _ _ _ Hset) as [_ Hrecs].
  eexists k, _, Xf, labels, centers. cbn. repeat split; try done.
  unfold check_array in HX.
  destruct (mapM _ _) as [Xf'|] eqn:E; [|done]. injection HX as ->.
  apply length_mapM in E. rewrite <-E. unfold values.
  by rewrite length_map, length_seq.
Qed.

Lemma labels_aligned_witness :
  ∃ k X Xf labels centers,
    fit_log (run_clustering round_robin "Sepal length (cm)"
               "Petal length (cm)" (PyInt 4) PyNone sample_world).2
    = fit_log sample_world ++ [(PyInt k, X)] ∧
    check_array X = Ok Xf ∧ length Xf = length sample_bundle ∧
    round_robin (random_state sample_world) k Xf
    = (labels, centers,
       random_state (run_clustering round_robin "Sepal length (cm)"
                       "Petal length (cm)" (PyInt 4) PyNone sample_world).2) ∧
    (sample_run "Sepal length (cm)" "Petal length (cm)" 4).2
    = zip_with (λ f z, <["Cluster" := CStr (py_str z)]> (flower_record f))
               sample_bundle labels.
Proof.
  apply (labels_aligned round_robin sample_bundle
           "Sepal length (cm)" "Petal length (cm)" (PyInt 4) PyNone
           sample_world
           (sample_run "Sepal length (cm)" "Petal length (cm)" 4).1).
  - reflexivity.
  - apply returned_eq. vm_compute. reflexivity.
Defined.

(** ** One cluster *)




(** The rounding core meets the documented interface. *)




